(** * Impression manager of go-split-commons (package [provisional])

    A shallow embedding of [impmanager.go]: the constructor
    [NewImpressionManager], the per-item step [processImpression] and the two
    entry points [ProcessImpressions] and [ProcessSingle], together with the
    properties the specification states about them.

    The manager works on three collaborators that live outside the file under
    study (the impression observer, the impressions counter and the runtime
    telemetry) and on the wall clock.  Their code is not part of the unit, so
    the development is parametric in them: the observer is an arbitrary
    state-transition function, the clock an arbitrary sequence of readings,
    and the calls received by the counter and by the telemetry are recorded
    in a trace, in program order. *)

From Stdlib Require Import ZArith String List Bool Lia.
From stdpp Require Import base option list gmap strings.

(** ** Data *)

(** Modelled from the spec: [dtos.Impression] is declared outside the file
    under study.  The manager reads [FeatureName] and reads and writes [Pt];
    the remaining attributes (evaluation context, evaluated value, matched
    rule, timestamp of the evaluation) are opaque to it and are only looked
    at by the observer. *)
Record Impression := mkImpression {
  KeyName : string;
  FeatureName : string;
  Treatment : string;
  Label : string;
  Time : Z;
  Pt : Z
}.

(** [impression.Pt = v] *)
Definition setPt (impression : Impression) (v : Z) : Impression :=
  {| KeyName := KeyName impression;
     FeatureName := FeatureName impression;
     Treatment := Treatment impression;
     Label := Label impression;
     Time := Time impression;
     Pt := v |}.

(** Addresses of impression objects owned by the caller.  A pointer
    [*dtos.Impression] is an address; an address that holds no object plays
    the role of [nil]. *)
Definition addr := nat.

(** The slice header of a [[]dtos.Impression]: the backing array occupies the
    cells [base], ..., [base + len - 1]. *)
Record Slice := mkSlice { base : addr; len : nat }.

Definition cells (s : Slice) : list addr := seq (base s) (len s).

(** [*ImpressionsCounter]: the nil pointer or a pointer to the shared
    counter. *)
Inductive CounterRef := NilCounter | CounterPtr.

Definition nonNil (c : CounterRef) : bool :=
  match c with NilCounter => false | CounterPtr => true end.

(** Modelled from the spec: the kinds of statistics of the telemetry package,
    of which the manager uses [telemetry.ImpressionsDeduped] only. *)
Inductive StatKind :=
| ImpressionsDropped
| ImpressionsDeduped
| ImpressionsQueued.

(** [ImpressionManagerImpl].  The fields [impressionObserver] and
    [runtimeTelemetry] are interface values that refer to the single observer
    and the single telemetry of the world below; they carry no data of their
    own. *)
Record ImpressionManagerImpl := mkManager {
  impressionsCounter : CounterRef;
  shouldAddPreviousTime : bool;
  isOptimized : bool;
  listenerEnabled : bool
}.

(** No counter is dereferenced through a nil pointer: optimized mode comes
    with a counter. *)
Definition counterGuarded (i : ImpressionManagerImpl) : bool :=
  implb (isOptimized i) (nonNil (impressionsCounter i)).

Definition lastSeenCacheSize : Z := 500000.

(** ** Effects *)

(** Where a write of [Pt] lands: in the callee's own copy of the impression
    (the by-value parameter of [processImpression]) or in the caller's object
    behind a pointer. *)
Inductive PtTarget := LocalCopy | Through (p : addr).

(** What the pass does to the outside, in program order. *)
Inductive Event :=
| EvSetPt (dst : PtTarget) (v : Z)
| EvInc (featureName : string) (timeFrame : Z) (amount : Z)
| EvRecordImpressionsStats (kind : StatKind) (value : Z).

Definition incsOf (t : list Event) : list (string * Z * Z) :=
  flat_map (fun e => match e with EvInc f n a => [(f, n, a)] | _ => [] end) t.

Definition statsOf (t : list Event) : list (StatKind * Z) :=
  flat_map (fun e => match e with
                     | EvRecordImpressionsStats k v => [(k, v)]
                     | _ => []
                     end) t.

Definition ptWritesOf (t : list Event) : list (PtTarget * Z) :=
  flat_map (fun e => match e with EvSetPt d v => [(d, v)] | _ => [] end) t.

(** The runtime panic "invalid memory address or nil pointer dereference",
    told apart by the pointer that was followed. *)
Inductive Panic := NilCounterDeref | NilImpressionDeref.

Inductive Res (W A : Type) :=
| Done (a : A) (w : W)
| Abort (c : Panic).
Arguments Done {W A} a w.
Arguments Abort {W A} c.

(** Everything a pass can read or change: the observer, the caller's
    impressions by address, the number of clock readings taken so far, and
    the events so far. *)
Record World {ObsState : Type} := mkWorld {
  observer : ObsState;
  heap : gmap addr Impression;
  ticks : nat;
  trace : list Event
}.
Arguments World : clear implicits.

(** ** Collaborators as the specification describes them

    The results of this file hold for every observer, clock and truncation.
    The ones below are used to run the code on sample inputs. *)

(** Modelled from the spec: the identity cache behind the observer.  Its
    test-and-set "returns the previously stored timestamp for that identity
    (or none) and stores the impression's own timestamp as the new value";
    the previous time is 0 if none was found.  The identity is taken to be
    the feature name with the key, the treatment and the label.  The cache
    keeps its entries most recent first; eviction is left out, the sample
    inputs staying far below the capacity. *)
Definition Identity : Type := string * string * string * string.

Definition identityOf (featureName : string) (x : Impression) : Identity :=
  (featureName, KeyName x, Treatment x, Label x).

Definition sameIdentity (a b : Identity) : bool :=
  let '(f1, k1, t1, l1) := a in
  let '(f2, k2, t2, l2) := b in
  String.eqb f1 f2 && String.eqb k1 k2 && String.eqb t1 t2 && String.eqb l1 l2.

Definition Cache : Type := list (Identity * Z).

Fixpoint lastSeen (id : Identity) (cache : Cache) : option Z :=
  match cache with
  | [] => None
  | (id', t) :: cache' => if sameIdentity id id' then Some t
                          else lastSeen id cache'
  end.

Definition cacheTestAndSet (featureName : string) (x : Impression)
    (cache : Cache) : (Z * bool) * Cache :=
  let id := identityOf featureName x in
  (default 0%Z (lastSeen id cache), false,
   (id, Time x)
   :: List.filter (fun e => negb (sameIdentity id (fst e))) cache).

(** Modelled from the spec: construction of the cache fails on an invalid
    capacity (zero or negative). *)
Definition cacheNew (size : Z) : Cache + string :=
  if (0 <? size)%Z then inl [] else inr "invalid capacity"%string.

(** Modelled from the spec: truncation to the start of the window, for the
    hourly bucket the spec gives as an example.  [Z.rem] is Go's [%]. *)
Definition hourNanos : Z := 3600000000000.

Definition truncateToHour (timestampNanos : Z) : Z :=
  (timestampNanos - Z.rem timestampNanos hourNanos)%Z.

(** Modelled from the spec: the configuration as the manager sees it, "two
    booleans (addPreviousTime, optimizeImpressions) and listenerEnabled". *)
Record Flags := mkFlags {
  addPreviousTime : bool;
  optimizeImpressions : bool;
  listenerOn : bool
}.

(** A clock that answers the given readings in turn. *)
Definition readings (l : list Z) (n : nat) : Z := nth n l 0%Z.

(** ** Sample inputs *)

(** One identity of feature f1, evaluated at time [t], with [pt] in its
    [Pt] field. *)
Definition sighting (t pt : Z) : Impression :=
  mkImpression "user-1" "f1" "on" "default rule" t pt.

(** Two readings in the first hour and one two hours later. *)
Definition sampleClock : nat -> Z := readings [100; 150; 7200000000200]%Z.

Definition sampleBatch : list Impression :=
  [sighting 100 0; sighting 150 0; sighting 7200000000200 0].

(** The batch in the cells 0, 1 and 2 of the caller's memory, an observer
    that has seen nothing, and a clock that has not been read. *)
Definition sampleWorld : World Cache :=
  {| observer := [];
     heap := <[0%nat := sighting 100 0]>
               (<[1%nat := sighting 150 0]>
                  (<[2%nat := sighting 7200000000200 0]> ∅));
     ticks := 0;
     trace := [] |}.

(** An impression that reaches the manager with a [Pt] already in it. *)
Definition staleWorld : World Cache :=
  {| observer := [];
     heap := <[0%nat := sighting 100 5]> ∅;
     ticks := 0;
     trace := [] |}.

Definition optimizedManager : ImpressionManagerImpl :=
  {| impressionsCounter := CounterPtr;
     shouldAddPreviousTime := true;
     isOptimized := true;
     listenerEnabled := true |}.

Definition plainManager : ImpressionManagerImpl :=
  {| impressionsCounter := NilCounter;
     shouldAddPreviousTime := false;
     isOptimized := false;
     listenerEnabled := true |}.

(** ** The code *)

Section Manager.

(** The state of the impression observer (the bounded cache of last-seen
    times). *)
Context {ObsState : Type}.

(** [ImpressionObserver.TestAndSet(featureName, impression)]: the previous
    time, whether an error came with it, and the observer afterwards.  The
    observer reads the impression it is handed. *)
Variable TestAndSet :
  string -> Impression -> ObsState -> (Z * bool) * ObsState.

(** [time.Now().UTC().UnixNano()]: the reading of the n-th call. *)
Variable wallclock : nat -> Z.

(** [util.TruncateTimeFrame] *)
Variable TruncateTimeFrame : Z -> Z.

Definition M (A : Type) : Type := World ObsState -> Res (World ObsState) A.

#[local] Instance M_ret : MRet M := fun A a w => Done a w.
#[local] Instance M_bind : MBind M := fun A B f m w =>
  match m w with
  | Done a w' => f a w'
  | Abort c => Abort c
  end.

(** *** Primitive actions *)

Definition emit (e : Event) : M unit := fun w =>
  Done tt {| observer := observer w; heap := heap w;
             ticks := ticks w; trace := trace w ++ [e] |}.

(** Reading through a pointer to an impression. *)
Definition load (p : addr) : M Impression := fun w =>
  match heap w !! p with
  | Some impression => Done impression w
  | None => Abort NilImpressionDeref
  end.

(** [p.Pt = v] on the caller's object. *)
Definition storePt (p : addr) (v : Z) : M unit := fun w =>
  match heap w !! p with
  | Some impression =>
      Done tt {| observer := observer w;
                 heap := <[p := setPt impression v]> (heap w);
                 ticks := ticks w;
                 trace := trace w ++ [EvSetPt (Through p) v] |}
  | None => Abort NilImpressionDeref
  end.

Definition testAndSet (featureName : string) (impression : Impression)
  : M (Z * bool) := fun w =>
  let '(r, o) := TestAndSet featureName impression (observer w) in
  Done r {| observer := o; heap := heap w;
            ticks := ticks w; trace := trace w |}.

Definition timeNow : M Z := fun w =>
  Done (wallclock (ticks w))
       {| observer := observer w; heap := heap w;
          ticks := S (ticks w); trace := trace w |}.

(** [c.Inc(featureName, timeFrame, amount)]: the method locks the counter's
    mutex first, which follows the receiver. *)
Definition Inc (c : CounterRef) (featureName : string) (timeFrame amount : Z)
  : M unit :=
  match c with
  | NilCounter => fun _ => Abort NilCounterDeref
  | CounterPtr => emit (EvInc featureName timeFrame amount)
  end.

Definition RecordImpressionsStats (kind : StatKind) (value : Z) : M unit :=
  emit (EvRecordImpressionsStats kind value).

(** *** The manager *)

Section Constructor.

(** [NewImpressionObserver(size)] and the error it may return. *)
Context {Err : Type}.
Variable NewImpressionObserver : Z -> ObsState + Err.

(** [conf.ManagerConfig] and the policies of package [util] on it. *)
Context {ManagerConfig : Type}.
Variable ListenerEnabled : ManagerConfig -> bool.
Variable ShouldAddPreviousTime : ManagerConfig -> bool.
Variable ShouldBeOptimized : ManagerConfig -> bool.

Definition NewImpressionManager (managerConfig : ManagerConfig)
    (impressionCounter : CounterRef)
  : (ImpressionManagerImpl * ObsState) + Err :=
  match NewImpressionObserver lastSeenCacheSize with
  | inr err => inr err
  | inl impressionObserver =>
      inl ({| impressionsCounter := impressionCounter;
              shouldAddPreviousTime := ShouldAddPreviousTime managerConfig;
              isOptimized := nonNil impressionCounter
                             && ShouldBeOptimized managerConfig;
              listenerEnabled := ListenerEnabled managerConfig |},
           impressionObserver)
  end.

End Constructor.

Definition processImpression (i : ImpressionManagerImpl)
    (impression : Impression) (forLog forListener : list Impression)
  : M (list Impression * list Impression) :=
  impression ←
    (if shouldAddPreviousTime i then
       '(pt, _) ← testAndSet (FeatureName impression) impression;
       _ ← emit (EvSetPt LocalCopy pt);
       mret (setPt impression pt)
     else mret impression);
  now ← timeNow;
  _ ← (if isOptimized i then
         Inc (impressionsCounter i) (FeatureName impression) now 1
       else mret tt);
  let forLog :=
    if negb (isOptimized i) || (Pt impression =? 0)%Z
       || (Pt impression <? TruncateTimeFrame now)%Z
    then forLog ++ [impression] else forLog in
  let forListener :=
    if listenerEnabled i then forListener ++ [impression]
    else forListener in
  mret (forLog, forListener).

(** The body of the [range] loop of [ProcessImpressions], over the cells
    that are still to be visited. *)
Fixpoint rangeLoop (i : ImpressionManagerImpl) (rest : list addr)
    (forLog forListener : list Impression)
  : M (list Impression * list Impression) :=
  match rest with
  | [] => mret (forLog, forListener)
  | c :: rest' =>
      impression ← load c;
      '(forLog, forListener) ←
        processImpression i impression forLog forListener;
      rangeLoop i rest' forLog forListener
  end.

(** Both lengths are Go [int]s between 0 and the largest [int], so their
    difference is computed without wrap-around and [int64] keeps it. *)
Definition ProcessImpressions (i : ImpressionManagerImpl)
    (impressions : Slice)
  : M (list Impression * list Impression) :=
  '(forLog, forListener) ← rangeLoop i (cells impressions) [] [];
  _ ← RecordImpressionsStats ImpressionsDeduped
        (Z.of_nat (len impressions) - Z.of_nat (length forLog))%Z;
  mret (forLog, forListener).

(** The last disjunct and the one before it read through the pointer; Go's
    [||] does not evaluate them when optimization is off. *)
Definition ProcessSingle (i : ImpressionManagerImpl) (impression : addr)
  : M (bool * bool) :=
  _ ← (if shouldAddPreviousTime i then
         target ← load impression;
         '(pt, _) ← testAndSet (FeatureName target) target;
         storePt impression pt
       else mret tt);
  now ← timeNow;
  _ ← (if isOptimized i then
         target ← load impression;
         Inc (impressionsCounter i) (FeatureName target) now 1
       else mret tt);
  toLog ←
    (if negb (isOptimized i) then mret true
     else
       target ← load impression;
       mret ((Pt target =? 0)%Z
             || (Pt target <? TruncateTimeFrame now)%Z));
  mret (toLog, listenerEnabled i).

(** ** What one pass computes

    The quantities a pass is made of, as plain functions of the impression,
    the observer and the clock reading.  The results below relate the
    monadic code to them. *)

(** The previous time the observer answers for an impression. *)
Definition previousTime (impression : Impression) (o : ObsState) : Z :=
  fst (fst (TestAndSet (FeatureName impression) impression o)).

Definition observerAfter (impression : Impression) (o : ObsState) : ObsState :=
  snd (TestAndSet (FeatureName impression) impression o).

(** The impression as the rest of the pass sees it. *)
Definition annotated (i : ImpressionManagerImpl) (impression : Impression)
    (o : ObsState) : Impression :=
  if shouldAddPreviousTime i then setPt impression (previousTime impression o)
  else impression.

Definition observed (i : ImpressionManagerImpl) (impression : Impression)
    (o : ObsState) : ObsState :=
  if shouldAddPreviousTime i then observerAfter impression o else o.

(** The condition of the [if] that guards [append(forLog, impression)]. *)
Definition toLogCond (i : ImpressionManagerImpl) (impression : Impression)
    (now : Z) : bool :=
  negb (isOptimized i) || (Pt impression =? 0)%Z
  || (Pt impression <? TruncateTimeFrame now)%Z.

(** The events of one pass that writes [Pt] at [dst]. *)
Definition passEvents (i : ImpressionManagerImpl) (dst : PtTarget)
    (impression : Impression) (o : ObsState) (now : Z) : list Event :=
  (if shouldAddPreviousTime i then [EvSetPt dst (previousTime impression o)]
   else [])
  ++ (if isOptimized i then [EvInc (FeatureName impression) now 1] else []).

(** The passes of a batch: each impression as annotated, with the clock
    reading of its pass and the events of its pass; the observer is threaded
    from one pass to the next and the clock advances by one reading. *)
Fixpoint passes (i : ImpressionManagerImpl) (xs : list Impression)
    (o : ObsState) (k : nat) : list (Impression * Z * list Event) :=
  match xs with
  | [] => []
  | x :: xs' =>
      (annotated i x o, wallclock k, passEvents i LocalCopy x o (wallclock k))
      :: passes i xs' (observed i x o) (S k)
  end.

Fixpoint observedAll (i : ImpressionManagerImpl) (xs : list Impression)
    (o : ObsState) : ObsState :=
  match xs with
  | [] => o
  | x :: xs' => observedAll i xs' (observed i x o)
  end.

Definition loggedOf (i : ImpressionManagerImpl)
    (ps : list (Impression * Z * list Event)) : list Impression :=
  flat_map (fun p => if toLogCond i (fst (fst p)) (snd (fst p))
                     then [fst (fst p)] else []) ps.

Definition listenedOf (i : ImpressionManagerImpl)
    (ps : list (Impression * Z * list Event)) : list Impression :=
  flat_map (fun p => if listenerEnabled i then [fst (fst p)] else []) ps.

Definition eventsOf (ps : list (Impression * Z * list Event)) : list Event :=
  flat_map snd ps.

(** The impressions a slice holds, when all its cells are allocated. *)
Definition readSlice (h : gmap addr Impression) (s : Slice)
  : option (list Impression) :=
  mapM (fun c => h !! c) (cells s).

(** The impressions of a batch as their passes annotate them. *)
Fixpoint annotatedAll (i : ImpressionManagerImpl) (xs : list Impression)
    (o : ObsState) : list Impression :=
  match xs with
  | [] => []
  | x :: xs' => annotated i x o :: annotatedAll i xs' (observed i x o)
  end.

(** The condition of the code, as the disjunction it computes. *)
Definition shouldLog (i : ImpressionManagerImpl) (x : Impression) (now : Z)
  : Prop :=
  isOptimized i = false \/ Pt x = 0%Z \/ (Pt x < TruncateTimeFrame now)%Z.

#[global] Instance shouldLog_dec i x now : Decision (shouldLog i x now).
Proof. unfold shouldLog. apply _. Defined.

(** ** Running the code *)

Lemma FeatureName_annotated i impression o :
  FeatureName (annotated i impression o) = FeatureName impression.
Proof. unfold annotated. by destruct (shouldAddPreviousTime i). Qed.

Lemma Pt_annotated i impression o :
  Pt (annotated i impression o)
  = if shouldAddPreviousTime i then previousTime impression o
    else Pt impression.
Proof. unfold annotated. by destruct (shouldAddPreviousTime i). Qed.

Lemma counterGuarded_nonNil i :
  counterGuarded i = true -> isOptimized i = true ->
  impressionsCounter i = CounterPtr.
Proof.
  unfold counterGuarded. intros Hg Ho. rewrite Ho in Hg. simpl in Hg.
  by destruct (impressionsCounter i).
Qed.

(** The per-item step, run on any world. *)
Lemma processImpression_run i impression forLog forListener w :
  counterGuarded i = true ->
  processImpression i impression forLog forListener w
  = let x := annotated i impression (observer w) in
    let now := wallclock (ticks w) in
    Done (if toLogCond i x now then forLog ++ [x] else forLog,
          if listenerEnabled i then forListener ++ [x] else forListener)
         {| observer := observed i impression (observer w);
            heap := heap w;
            ticks := S (ticks w);
            trace := trace w
                     ++ passEvents i LocalCopy impression (observer w) now |}.
Proof.
  intros Hg.
  unfold processImpression, annotated, observed, passEvents, toLogCond,
    previousTime, observerAfter, mbind, M_bind, mret, M_ret, testAndSet,
    timeNow, emit.
  destruct (shouldAddPreviousTime i) eqn:Hs, (isOptimized i) eqn:Ho;
    try rewrite (counterGuarded_nonNil i Hg Ho);
    try destruct (TestAndSet (FeatureName impression) impression (observer w))
      as [[pt err] o'];
    simpl; unfold emit; simpl;
    rewrite <- ?app_assoc, ?app_nil_r; simpl; reflexivity.
Qed.

(** The single entry point, run on a pointer that holds an impression. *)
Lemma ProcessSingle_run i p impression w :
  counterGuarded i = true ->
  heap w !! p = Some impression ->
  ProcessSingle i p w
  = let x := annotated i impression (observer w) in
    let now := wallclock (ticks w) in
    Done (toLogCond i x now, listenerEnabled i)
         {| observer := observed i impression (observer w);
            heap := if shouldAddPreviousTime i then <[p := x]> (heap w)
                    else heap w;
            ticks := S (ticks w);
            trace := trace w
                     ++ passEvents i (Through p) impression (observer w) now |}.
Proof.
  intros Hg Hp.
  unfold ProcessSingle, annotated, observed, passEvents, toLogCond,
    previousTime, observerAfter, mbind, M_bind, mret, M_ret, testAndSet,
    timeNow, load, storePt.
  destruct (shouldAddPreviousTime i) eqn:Hs, (isOptimized i) eqn:Ho;
    try rewrite (counterGuarded_nonNil i Hg Ho);
    rewrite ?Hp;
    try destruct (TestAndSet (FeatureName impression) impression (observer w))
      as [[pt err] o'];
    repeat first
      [ rewrite Hp
      | rewrite (lookup_insert_eq (heap w))
      | progress cbn [observer heap ticks trace fst snd negb Inc emit
                      FeatureName Pt setPt app orb] ];
    rewrite <- ?app_assoc, ?app_nil_r; reflexivity.
Qed.

(** On a nil pointer the pass panics as soon as it has to read through it,
    and not before. *)
Lemma ProcessSingle_nil i p w :
  heap w !! p = None ->
  ProcessSingle i p w
  = if shouldAddPreviousTime i || isOptimized i
    then Abort NilImpressionDeref
    else Done (true, listenerEnabled i)
              {| observer := observer w; heap := heap w;
                 ticks := S (ticks w); trace := trace w |}.
Proof.
  intros Hp.
  unfold ProcessSingle, mbind, M_bind, mret, M_ret, timeNow, load.
  destruct (shouldAddPreviousTime i), (isOptimized i);
    simpl; rewrite ?Hp; reflexivity.
Qed.

Lemma loggedOf_cons i p ps :
  loggedOf i (p :: ps)
  = (if toLogCond i (fst (fst p)) (snd (fst p)) then [fst (fst p)] else [])
    ++ loggedOf i ps.
Proof. reflexivity. Qed.

Lemma listenedOf_cons i p ps :
  listenedOf i (p :: ps)
  = (if listenerEnabled i then [fst (fst p)] else []) ++ listenedOf i ps.
Proof. reflexivity. Qed.

(** The loop, run on cells that hold the impressions [xs]. *)
Lemma rangeLoop_run i cs : forall xs forLog forListener w,
  counterGuarded i = true ->
  Forall2 (fun c x => heap w !! c = Some x) cs xs ->
  rangeLoop i cs forLog forListener w
  = let ps := passes i xs (observer w) (ticks w) in
    Done (forLog ++ loggedOf i ps, forListener ++ listenedOf i ps)
         {| observer := observedAll i xs (observer w);
            heap := heap w;
            ticks := length xs + ticks w;
            trace := trace w ++ eventsOf ps |}.
Proof.
  induction cs as [|c cs IH]; intros xs forLog forListener w Hg Hcs.
  - apply Forall2_nil_inv_l in Hcs as ->. simpl.
    unfold mret, M_ret, loggedOf, listenedOf, eventsOf. simpl.
    rewrite !app_nil_r. by destruct w.
  - apply Forall2_cons_inv_l in Hcs as (x & xs' & Hc & Hcs & ->).
    cbn [rangeLoop]. unfold mbind, M_bind at 1. unfold load at 1.
    rewrite Hc. unfold M_bind at 1.
    rewrite (processImpression_run i x forLog forListener w Hg).
    cbv beta iota zeta. rewrite (IH xs'); [| done | exact Hcs].
    cbn [observer heap ticks trace passes observedAll length].
    rewrite loggedOf_cons, listenedOf_cons.
    cbn [fst snd]. unfold eventsOf. cbn [flat_map snd].
    rewrite Nat.add_succ_r. cbn [Nat.add].
    f_equal; [f_equal|f_equal].
    + by destruct (toLogCond _ _ _); rewrite <- ?app_assoc.
    + by destruct (listenerEnabled i); rewrite <- ?app_assoc.
    + by rewrite <- app_assoc.
Qed.

Lemma readSlice_Some h s xs :
  readSlice h s = Some xs ->
  Forall2 (fun c x => h !! c = Some x) (cells s) xs.
Proof. unfold readSlice. by rewrite mapM_Some. Qed.

Lemma readSlice_length h s xs :
  readSlice h s = Some xs -> length xs = len s.
Proof.
  intros H. apply readSlice_Some, Forall2_length in H.
  unfold cells in H. by rewrite length_seq in H.
Qed.

(** The batch entry point, run on a slice that holds the impressions [xs]. *)
Lemma ProcessImpressions_run i s xs w :
  counterGuarded i = true ->
  readSlice (heap w) s = Some xs ->
  ProcessImpressions i s w
  = let ps := passes i xs (observer w) (ticks w) in
    Done (loggedOf i ps, listenedOf i ps)
         {| observer := observedAll i xs (observer w);
            heap := heap w;
            ticks := length xs + ticks w;
            trace := (trace w ++ eventsOf ps)
                     ++ [EvRecordImpressionsStats ImpressionsDeduped
                           (Z.of_nat (length xs)
                            - Z.of_nat (length (loggedOf i ps)))%Z] |}.
Proof.
  intros Hg Hs. unfold ProcessImpressions, mbind, M_bind.
  rewrite (rangeLoop_run i (cells s) xs [] [] w Hg (readSlice_Some _ _ _ Hs)).
  cbv zeta. cbn [app]. unfold RecordImpressionsStats, emit, mret, M_ret.
  cbn [observer heap ticks trace].
  by rewrite (readSlice_length _ _ _ Hs).
Qed.

(** ** Facts about traces and passes *)

Lemma incsOf_app t1 t2 : incsOf (t1 ++ t2) = incsOf t1 ++ incsOf t2.
Proof. apply flat_map_app. Qed.

Lemma statsOf_app t1 t2 : statsOf (t1 ++ t2) = statsOf t1 ++ statsOf t2.
Proof. apply flat_map_app. Qed.

Lemma ptWritesOf_app t1 t2 :
  ptWritesOf (t1 ++ t2) = ptWritesOf t1 ++ ptWritesOf t2.
Proof. apply flat_map_app. Qed.

Lemma incsOf_passEvents i dst x o now :
  incsOf (passEvents i dst x o now)
  = if isOptimized i then [(FeatureName x, now, 1%Z)] else [].
Proof.
  unfold passEvents.
  by destruct (shouldAddPreviousTime i), (isOptimized i).
Qed.

Lemma statsOf_passEvents i dst x o now :
  statsOf (passEvents i dst x o now) = [].
Proof.
  unfold passEvents.
  by destruct (shouldAddPreviousTime i), (isOptimized i).
Qed.

Lemma ptWritesOf_passEvents i dst x o now :
  ptWritesOf (passEvents i dst x o now)
  = if shouldAddPreviousTime i then [(dst, previousTime x o)] else [].
Proof.
  unfold passEvents.
  by destruct (shouldAddPreviousTime i), (isOptimized i).
Qed.

Lemma statsOf_passes i xs : forall o k,
  statsOf (eventsOf (passes i xs o k)) = [].
Proof.
  induction xs as [|x xs IH]; intros o k; [done|].
  unfold eventsOf in *. cbn [passes flat_map snd].
  by rewrite statsOf_app, statsOf_passEvents, IH.
Qed.

(** The increments of a batch: one per impression, in the order of the
    input, each at the clock reading of its own pass. *)
Lemma incsOf_passes i xs : forall o k,
  incsOf (eventsOf (passes i xs o k))
  = if isOptimized i
    then imap (fun j x => (FeatureName x, wallclock (k + j), 1%Z)) xs
    else [].
Proof.
  induction xs as [|x xs IH]; intros o k.
  - by destruct (isOptimized i).
  - unfold eventsOf in *. cbn [passes flat_map snd].
    rewrite incsOf_app, incsOf_passEvents, IH.
    destruct (isOptimized i); [|done].
    cbn [imap app]. rewrite Nat.add_0_r. f_equal.
    apply imap_ext. intros j y _. cbn. by rewrite Nat.add_succ_r.
Qed.

Lemma passes_annotatedAll i xs : forall o k,
  map (fun p => fst (fst p)) (passes i xs o k) = annotatedAll i xs o.
Proof.
  induction xs as [|x xs IH]; intros o k; [done|].
  cbn [passes annotatedAll map fst]. by rewrite IH.
Qed.

Lemma annotatedAll_length i xs : forall o,
  length (annotatedAll i xs o) = length xs.
Proof. induction xs as [|x xs IH]; intros o; [done|]. cbn. by rewrite IH. Qed.

Lemma annotatedAll_off i xs o :
  shouldAddPreviousTime i = false -> annotatedAll i xs o = xs.
Proof.
  intros Hs. revert o. induction xs as [|x xs IH]; intros o; [done|].
  cbn [annotatedAll]. unfold annotated at 1. rewrite Hs. by rewrite IH.
Qed.

Lemma setPt_Pt x : setPt x (Pt x) = x.
Proof. by destruct x. Qed.

(** Annotation touches [Pt] and nothing else. *)
Lemma annotatedAll_setPt i xs : forall o,
  Forall2 (fun x y => exists v, y = setPt x v) xs (annotatedAll i xs o).
Proof.
  induction xs as [|x xs IH]; intros o; [constructor|].
  cbn [annotatedAll]. constructor; [|apply IH].
  unfold annotated. destruct (shouldAddPreviousTime i); [by eexists|].
  exists (Pt x). by rewrite setPt_Pt.
Qed.

Lemma ptWritesOf_passes i xs : forall o k,
  ptWritesOf (eventsOf (passes i xs o k))
  = if shouldAddPreviousTime i
    then map (fun y => (LocalCopy, Pt y)) (annotatedAll i xs o)
    else [].
Proof.
  induction xs as [|x xs IH]; intros o k.
  - by destruct (shouldAddPreviousTime i).
  - unfold eventsOf in *. cbn [passes flat_map snd].
    rewrite ptWritesOf_app, ptWritesOf_passEvents, IH.
    cbn [annotatedAll map]. rewrite Pt_annotated.
    by destruct (shouldAddPreviousTime i).
Qed.

Lemma loggedOf_sublist i ps :
  loggedOf i ps `sublist_of` map (fun p => fst (fst p)) ps.
Proof.
  induction ps as [|p ps IH]; [done|].
  rewrite loggedOf_cons. cbn [map].
  destruct (toLogCond _ _ _); cbn [app].
  - by apply sublist_skip.
  - by apply sublist_cons.
Qed.

Lemma listenedOf_all i ps :
  listenedOf i ps
  = if listenerEnabled i then map (fun p => fst (fst p)) ps else [].
Proof.
  induction ps as [|p ps IH]; [by destruct (listenerEnabled i)|].
  rewrite listenedOf_cons, IH. by destruct (listenerEnabled i).
Qed.

Lemma toLogCond_shouldLog i x now :
  toLogCond i x now = true <-> shouldLog i x now.
Proof.
  unfold toLogCond, shouldLog.
  rewrite !orb_true_iff, negb_true_iff, Z.eqb_eq, Z.ltb_lt. tauto.
Qed.

Lemma loggedOf_filter i ps :
  loggedOf i ps
  = map (fun p => fst (fst p))
        (filter (fun p => shouldLog i (fst (fst p)) (snd (fst p))) ps).
Proof.
  induction ps as [|p ps IH]; [done|].
  rewrite loggedOf_cons, IH, filter_cons.
  destruct (toLogCond i p.1.1 p.1.2) eqn:Hc; case_decide as Hd; try done.
  - apply toLogCond_shouldLog in Hc. contradiction.
  - apply toLogCond_shouldLog in Hd. congruence.
Qed.

(** ** The logging decision *)

(** C1.  An impression is logged exactly when optimization is off, or its
    [Pt] is 0, or its [Pt] lies before the truncation of the clock reading
    of its pass.  This holds for [ProcessSingle] (the flag [toLog]), for the
    per-item step (the append to [forLog]) and for a whole batch (where
    [forLog] keeps exactly the passes that satisfy the condition). *)
Theorem C1_logged_iff_condition i w p impression forLog forListener s xs :
  counterGuarded i = true ->
  heap w !! p = Some impression ->
  readSlice (heap w) s = Some xs ->
  let now := wallclock (ticks w) in
  let x := annotated i impression (observer w) in
  (exists toLog toListener w',
      ProcessSingle i p w = Done (toLog, toListener) w'
      /\ heap w' !! p = Some x
      /\ (toLog = true <-> shouldLog i x now))
  /\ (exists forLog' forListener' w',
      processImpression i impression forLog forListener w
      = Done (forLog', forListener') w'
      /\ (shouldLog i x now -> forLog' = forLog ++ [x])
      /\ (~ shouldLog i x now -> forLog' = forLog))
  /\ (exists forLogAll forListenerAll w',
      ProcessImpressions i s w = Done (forLogAll, forListenerAll) w'
      /\ forLogAll
         = map (fun q => fst (fst q))
               (filter (fun q => shouldLog i (fst (fst q)) (snd (fst q)))
                       (passes i xs (observer w) (ticks w)))).
Proof.
  intros Hg Hp Hs now x. split; [|split].
  - rewrite (ProcessSingle_run i p impression w Hg Hp). cbv zeta.
    eexists _, _, _. split; [reflexivity|]. cbn [heap]. split.
    + unfold x, annotated.
      destruct (shouldAddPreviousTime i); [apply lookup_insert_eq | done].
    + apply toLogCond_shouldLog.
  - rewrite (processImpression_run i impression forLog forListener w Hg).
    cbv zeta. eexists _, _, _. split; [reflexivity|].
    fold x now. destruct (toLogCond i x now) eqn:Hc.
    + split; [done|]. intros Hn. by apply toLogCond_shouldLog in Hc.
    + split; [|done]. intros Hy. apply toLogCond_shouldLog in Hy. congruence.
  - rewrite (ProcessImpressions_run i s xs w Hg Hs). cbv zeta.
    eexists _, _, _. split; [reflexivity|]. apply loggedOf_filter.
Qed.

(** ** The statistic of a batch *)

(** C2.  A call of [ProcessImpressions] on a batch [xs] hands the telemetry
    exactly one record, of kind [ImpressionsDeduped] and of value
    [len xs - len forLog]; the value lies between 0 and [len xs], and it is 0
    for the empty batch. *)
Theorem C2_deduped_reported_once i s xs w :
  counterGuarded i = true ->
  readSlice (heap w) s = Some xs ->
  exists forLog forListener w',
    ProcessImpressions i s w = Done (forLog, forListener) w'
    /\ statsOf (trace w')
       = statsOf (trace w)
         ++ [(ImpressionsDeduped,
              (Z.of_nat (length xs) - Z.of_nat (length forLog))%Z)]
    /\ (0 <= Z.of_nat (length xs) - Z.of_nat (length forLog)
         <= Z.of_nat (length xs))%Z
    /\ (xs = [] ->
        statsOf (trace w') = statsOf (trace w) ++ [(ImpressionsDeduped, 0%Z)]).
Proof.
  intros Hg Hs. rewrite (ProcessImpressions_run i s xs w Hg Hs). cbv zeta.
  eexists _, _, _. split; [reflexivity|]. cbn [trace].
  rewrite !statsOf_app, statsOf_passes, app_nil_r. split; [done|].
  pose proof (sublist_length _ _
    (loggedOf_sublist i (passes i xs (observer w) (ticks w)))) as Hle.
  rewrite passes_annotatedAll, annotatedAll_length in Hle.
  split; [lia|]. by intros ->.
Qed.

(** ** The suppression counter *)

(** C3.  With optimization on, each processed impression makes the counter
    receive exactly one [Inc] of amount 1 for its feature name, at the clock
    reading of its pass; the increment is there whatever the logging
    decision of the pass turns out to be (the statement does not look at
    it).  With optimization off the counter receives nothing.  A batch
    increments once per impression, in input order. *)
Theorem C3_one_increment_per_impression i w p impression forLog forListener
    s xs :
  counterGuarded i = true ->
  heap w !! p = Some impression ->
  readSlice (heap w) s = Some xs ->
  let one := if isOptimized i
             then [(FeatureName impression, wallclock (ticks w), 1%Z)]
             else [] in
  (exists r w',
      ProcessSingle i p w = Done r w'
      /\ incsOf (trace w') = incsOf (trace w) ++ one)
  /\ (exists r w',
      processImpression i impression forLog forListener w = Done r w'
      /\ incsOf (trace w') = incsOf (trace w) ++ one)
  /\ (exists r w',
      ProcessImpressions i s w = Done r w'
      /\ incsOf (trace w')
         = incsOf (trace w)
           ++ (if isOptimized i
               then imap (fun j x =>
                            (FeatureName x, wallclock (ticks w + j), 1%Z)) xs
               else [])).
Proof.
  intros Hg Hp Hs one. split; [|split].
  - rewrite (ProcessSingle_run i p impression w Hg Hp). cbv zeta.
    eexists _, _. split; [reflexivity|]. cbn [trace].
    by rewrite incsOf_app, incsOf_passEvents.
  - rewrite (processImpression_run i impression forLog forListener w Hg).
    cbv zeta. eexists _, _. split; [reflexivity|]. cbn [trace].
    by rewrite incsOf_app, incsOf_passEvents.
  - rewrite (ProcessImpressions_run i s xs w Hg Hs). cbv zeta.
    eexists _, _. split; [reflexivity|]. cbn [trace].
    rewrite !incsOf_app, incsOf_passes. cbn [incsOf flat_map].
    by rewrite app_nil_r.
Qed.

(** ** Writes of [Pt] *)

(** C4, as the code has it.  A pass writes [Pt] at most once, and only when
    [shouldAddPreviousTime] is on; the value written is the previous time
    the observer answers, whatever [Pt] the caller had supplied.  Nothing
    relates the two values, so the write may lower [Pt] or set it back to
    0. *)
Theorem C4_pt_written_at_most_once i w p impression forLog forListener :
  counterGuarded i = true ->
  heap w !! p = Some impression ->
  let v := previousTime impression (observer w) in
  (exists r w' ws,
      ProcessSingle i p w = Done r w'
      /\ ptWritesOf (trace w') = ptWritesOf (trace w) ++ ws
      /\ length ws <= 1
      /\ (shouldAddPreviousTime i = false ->
          ws = [] /\ heap w' !! p = Some impression)
      /\ (shouldAddPreviousTime i = true ->
          ws = [(Through p, v)] /\ heap w' !! p = Some (setPt impression v)))
  /\ (exists r w' ws,
      processImpression i impression forLog forListener w = Done r w'
      /\ ptWritesOf (trace w') = ptWritesOf (trace w) ++ ws
      /\ length ws <= 1
      /\ (shouldAddPreviousTime i = false -> ws = [])
      /\ (shouldAddPreviousTime i = true -> ws = [(LocalCopy, v)])).
Proof.
  intros Hg Hp v. split.
  - rewrite (ProcessSingle_run i p impression w Hg Hp). cbv zeta.
    eexists _, _, _. split; [reflexivity|]. cbn [trace heap].
    rewrite ptWritesOf_app, ptWritesOf_passEvents. split; [reflexivity|].
    unfold annotated. fold v.
    destruct (shouldAddPreviousTime i); cbn [length];
      (split; [lia|]); split; intros Hb; try discriminate Hb;
      rewrite ?lookup_insert_eq; done.
  - rewrite (processImpression_run i impression forLog forListener w Hg).
    cbv zeta. eexists _, _, _. split; [reflexivity|]. cbn [trace].
    rewrite ptWritesOf_app, ptWritesOf_passEvents. split; [reflexivity|].
    fold v.
    destruct (shouldAddPreviousTime i); cbn [length];
      (split; [lia|]); split; intros Hb; try discriminate Hb; done.
Qed.

(** ** The two entry points agree *)

Lemma readSlice_one h p impression :
  h !! p = Some impression -> readSlice h (mkSlice p 1) = Some [impression].
Proof. intros Hp. unfold readSlice, cells. cbn. by rewrite Hp. Qed.

(** C5.  [ProcessSingle] on a pointer to an impression takes the decisions
    of the per-item step of the batch on that impression: [toLog] and
    [toListener] say whether the step appends, the impression left behind
    the pointer is the annotated impression the step appends, and observer,
    clock and counter end up the same.  The batch on the one-element slice
    agrees too, and is the only one of the three to report a statistic. *)
Theorem C5_single_agrees_with_batch_step i w p impression forLog forListener :
  counterGuarded i = true ->
  heap w !! p = Some impression ->
  exists toLog toListener w1 forLog' forListener' w2 forLog1 forListener1 w3 x,
    ProcessSingle i p w = Done (toLog, toListener) w1
    /\ processImpression i impression forLog forListener w
       = Done (forLog', forListener') w2
    /\ ProcessImpressions i (mkSlice p 1) w = Done (forLog1, forListener1) w3
    /\ heap w1 !! p = Some x
    /\ forLog' = (if toLog then forLog ++ [x] else forLog)
    /\ forListener' = (if toListener then forListener ++ [x] else forListener)
    /\ forLog1 = (if toLog then [x] else [])
    /\ forListener1 = (if toListener then [x] else [])
    /\ observer w1 = observer w2 /\ observer w3 = observer w1
    /\ ticks w1 = ticks w2 /\ ticks w3 = ticks w1
    /\ incsOf (trace w1) = incsOf (trace w2)
    /\ incsOf (trace w3) = incsOf (trace w1)
    /\ map snd (ptWritesOf (trace w1)) = map snd (ptWritesOf (trace w2))
    /\ statsOf (trace w1) = statsOf (trace w)
    /\ statsOf (trace w2) = statsOf (trace w)
    /\ statsOf (trace w3)
       = statsOf (trace w)
         ++ [(ImpressionsDeduped, if toLog then 0%Z else 1%Z)].
Proof.
  intros Hg Hp.
  rewrite (ProcessSingle_run i p impression w Hg Hp).
  rewrite (processImpression_run i impression forLog forListener w Hg).
  rewrite (ProcessImpressions_run i _ [impression] w Hg
             (readSlice_one _ _ _ Hp)).
  cbv zeta. cbn [passes]. rewrite loggedOf_cons, listenedOf_cons.
  unfold eventsOf. cbn [loggedOf listenedOf flat_map fst snd length].
  rewrite !app_nil_r.
  eexists _, _, _, _, _, _, _, _, _, (annotated i impression (observer w)).
  repeat (split; [reflexivity|]).
  cbn [observer heap ticks trace].
  rewrite !statsOf_app, !incsOf_app, !ptWritesOf_app, !statsOf_passEvents,
    !incsOf_passEvents, !ptWritesOf_passEvents, !app_nil_r.
  split.
  { unfold annotated.
    destruct (shouldAddPreviousTime i); [apply lookup_insert_eq | done]. }
  repeat split; try done.
  - rewrite !map_app. by destruct (shouldAddPreviousTime i).
  - by destruct (toLogCond _ _ _).
Qed.

(** ** Annotation switched off *)

(** C6.  With [shouldAddPreviousTime] off the manager never writes [Pt]:
    [ProcessSingle] leaves the caller's object as it was, and the outputs of
    [ProcessImpressions] are made of the very impressions the caller
    supplied. *)
Theorem C6_pt_untouched_when_annotation_off i w p impression s xs :
  counterGuarded i = true ->
  shouldAddPreviousTime i = false ->
  heap w !! p = Some impression ->
  readSlice (heap w) s = Some xs ->
  (exists r w',
      ProcessSingle i p w = Done r w'
      /\ heap w' = heap w
      /\ heap w' !! p = Some impression
      /\ ptWritesOf (trace w') = ptWritesOf (trace w))
  /\ (exists forLog forListener w',
      ProcessImpressions i s w = Done (forLog, forListener) w'
      /\ forLog `sublist_of` xs
      /\ forListener = (if listenerEnabled i then xs else [])
      /\ ptWritesOf (trace w') = ptWritesOf (trace w)).
Proof.
  intros Hg Hoff Hp Hs. split.
  - rewrite (ProcessSingle_run i p impression w Hg Hp). cbv zeta.
    eexists _, _. split; [reflexivity|]. cbn [heap trace].
    rewrite ptWritesOf_app, ptWritesOf_passEvents, Hoff, app_nil_r. done.
  - rewrite (ProcessImpressions_run i s xs w Hg Hs). cbv zeta.
    eexists _, _, _. split; [reflexivity|]. cbn [trace].
    rewrite !ptWritesOf_app, ptWritesOf_passes, Hoff. cbn. rewrite !app_nil_r.
    rewrite listenedOf_all.
    pose proof (loggedOf_sublist i (passes i xs (observer w) (ticks w)))
      as Hsub.
    rewrite passes_annotatedAll in *.
    rewrite (annotatedAll_off i xs _ Hoff) in *. done.
Qed.

(** ** The listener *)

(** C7.  The listener decision is the flag [listenerEnabled] and nothing
    else: [toListener] equals it, and [forListener] is empty when it is off
    and holds every impression of the batch (as annotated, in input order)
    when it is on. *)
Theorem C7_listener_decision_is_flag i w p impression s xs :
  counterGuarded i = true ->
  heap w !! p = Some impression ->
  readSlice (heap w) s = Some xs ->
  (exists toLog toListener w',
      ProcessSingle i p w = Done (toLog, toListener) w'
      /\ toListener = listenerEnabled i)
  /\ (exists forLog forListener w',
      ProcessImpressions i s w = Done (forLog, forListener) w'
      /\ (listenerEnabled i = false -> forListener = [])
      /\ (listenerEnabled i = true ->
          forListener = annotatedAll i xs (observer w)
          /\ length forListener = length xs
          /\ Forall2 (fun x y => exists v, y = setPt x v) xs forListener)).
Proof.
  intros Hg Hp Hs. split.
  - rewrite (ProcessSingle_run i p impression w Hg Hp). cbv zeta.
    by eexists _, _, _.
  - rewrite (ProcessImpressions_run i s xs w Hg Hs). cbv zeta.
    eexists _, _, _. split; [reflexivity|].
    rewrite listenedOf_all, passes_annotatedAll.
    split; intros ->; [done|].
    split; [done|]. split; [apply annotatedAll_length|].
    apply annotatedAll_setPt.
Qed.

(** ** Order and length of the outputs *)

(** C8.  Both outputs of [ProcessImpressions] are subsequences of the
    annotated input, which is the input up to [Pt]; so neither is longer
    than the input and each keeps the order of the input.  The per-item step
    only ever appends: what the lists held before is a prefix of what they
    hold after. *)
Theorem C8_outputs_are_subsequences i w s xs impression forLog0 forListener0 :
  counterGuarded i = true ->
  readSlice (heap w) s = Some xs ->
  (exists forLog forListener w',
      ProcessImpressions i s w = Done (forLog, forListener) w'
      /\ Forall2 (fun x y => exists v, y = setPt x v)
                 xs (annotatedAll i xs (observer w))
      /\ forLog `sublist_of` annotatedAll i xs (observer w)
      /\ forListener `sublist_of` annotatedAll i xs (observer w)
      /\ length forLog <= length xs
      /\ length forListener <= length xs)
  /\ (exists forLog forListener w',
      processImpression i impression forLog0 forListener0 w
      = Done (forLog, forListener) w'
      /\ forLog0 `prefix_of` forLog
      /\ forListener0 `prefix_of` forListener).
Proof.
  intros Hg Hs. split.
  - rewrite (ProcessImpressions_run i s xs w Hg Hs). cbv zeta.
    eexists _, _, _. split; [reflexivity|].
    split; [apply annotatedAll_setPt|].
    assert (Hlog : loggedOf i (passes i xs (observer w) (ticks w))
                   `sublist_of` annotatedAll i xs (observer w)).
    { rewrite <- (passes_annotatedAll i xs (observer w) (ticks w)).
      apply loggedOf_sublist. }
    assert (Hlis : listenedOf i (passes i xs (observer w) (ticks w))
                   `sublist_of` annotatedAll i xs (observer w)).
    { rewrite listenedOf_all, passes_annotatedAll.
      destruct (listenerEnabled i); [done | apply sublist_nil_l]. }
    split; [done|]. split; [done|].
    apply sublist_length in Hlog, Hlis.
    rewrite annotatedAll_length in Hlog, Hlis. done.
  - rewrite (processImpression_run i impression forLog0 forListener0 w Hg).
    cbv zeta. eexists _, _, _. split; [reflexivity|].
    split.
    + destruct (toLogCond _ _ _); [by apply prefix_app_r | done].
    + destruct (listenerEnabled i); [by apply prefix_app_r | done].
Qed.

(** ** The nil counter *)

Lemma rangeLoop_counter_safe i cs : forall forLog forListener w,
  counterGuarded i = true ->
  rangeLoop i cs forLog forListener w <> Abort NilCounterDeref.
Proof.
  induction cs as [|c cs IH]; intros forLog forListener w Hg; [done|].
  cbn [rangeLoop]. unfold mbind, M_bind at 1. unfold load at 1.
  destruct (heap w !! c) as [x|]; [|done].
  unfold M_bind at 1.
  rewrite (processImpression_run i x forLog forListener w Hg).
  cbv beta iota zeta. by apply IH.
Qed.

Lemma ProcessImpressions_counter_safe i s w :
  counterGuarded i = true ->
  ProcessImpressions i s w <> Abort NilCounterDeref.
Proof.
  intros Hg. unfold ProcessImpressions, mbind, M_bind.
  pose proof (rangeLoop_counter_safe i (cells s) [] [] w Hg) as Hr.
  destruct (rangeLoop i (cells s) [] [] w) as [[forLog forListener] w'|c];
    [done | congruence].
Qed.

Lemma ProcessSingle_counter_safe i p w :
  counterGuarded i = true ->
  ProcessSingle i p w <> Abort NilCounterDeref.
Proof.
  intros Hg. destruct (heap w !! p) as [x|] eqn:Hp.
  - by rewrite (ProcessSingle_run i p x w Hg Hp).
  - rewrite (ProcessSingle_nil i p w Hp).
    by destruct (shouldAddPreviousTime i || isOptimized i).
Qed.


(** What the constructor returns is guarded. *)
Lemma NewImpressionManager_guarded {Err ManagerConfig : Type}
    (NewImpressionObserver : Z -> ObsState + Err)
    (ListenerEnabled ShouldAddPreviousTime ShouldBeOptimized
       : ManagerConfig -> bool)
    managerConfig impressionCounter i o :
  NewImpressionManager NewImpressionObserver ListenerEnabled
    ShouldAddPreviousTime ShouldBeOptimized managerConfig impressionCounter
  = inl (i, o) ->
  counterGuarded i = true.
Proof.
  unfold NewImpressionManager.
  destruct (NewImpressionObserver lastSeenCacheSize) as [o'|e]; [|done].
  intros [= <- <-]. unfold counterGuarded. cbn.
  by destruct impressionCounter, (ShouldBeOptimized managerConfig).
Qed.

(** C9.  A manager that [NewImpressionManager] returns has [isOptimized] on
    only if it holds a counter (a nil counter forces the flag off), and
    neither entry point ever follows a nil counter, whatever it is run on. *)
Theorem C9_constructor_guards_counter {Err ManagerConfig : Type}
    (NewImpressionObserver : Z -> ObsState + Err)
    (ListenerEnabled ShouldAddPreviousTime ShouldBeOptimized
       : ManagerConfig -> bool)
    managerConfig impressionCounter i o :
  NewImpressionManager NewImpressionObserver ListenerEnabled
    ShouldAddPreviousTime ShouldBeOptimized managerConfig impressionCounter
  = inl (i, o) ->
  (impressionCounter = NilCounter -> isOptimized i = false)
  /\ (isOptimized i = true -> impressionsCounter i = CounterPtr)
  /\ (forall w p, ProcessSingle i p w <> Abort NilCounterDeref)
  /\ (forall w s, ProcessImpressions i s w <> Abort NilCounterDeref).
Proof.
  intros Hnew.
  pose proof (NewImpressionManager_guarded _ _ _ _ _ _ _ _ Hnew) as Hg.
  split; [|split; [|split]].
  - intros ->. revert Hnew. unfold NewImpressionManager.
    destruct (NewImpressionObserver lastSeenCacheSize) as [o'|e]; [|done].
    by intros [= <- <-].
  - by apply counterGuarded_nonNil.
  - intros w q. by apply ProcessSingle_counter_safe.
  - intros w q. by apply ProcessImpressions_counter_safe.
Qed.

(** ** The caller's memory *)

(** C10.  [ProcessImpressions] leaves the caller's memory as it was: the
    slice still holds the impressions as supplied, every write of [Pt] goes
    to the callee's own copy, and the annotation shows in the outputs only.
    [ProcessSingle] writes the annotation into the caller's object. *)
Theorem C10_batch_leaves_input_untouched i w p impression s xs :
  counterGuarded i = true ->
  heap w !! p = Some impression ->
  readSlice (heap w) s = Some xs ->
  (exists forLog forListener w',
      ProcessImpressions i s w = Done (forLog, forListener) w'
      /\ heap w' = heap w
      /\ readSlice (heap w') s = Some xs
      /\ ptWritesOf (trace w')
         = ptWritesOf (trace w)
           ++ (if shouldAddPreviousTime i
               then map (fun y => (LocalCopy, Pt y))
                        (annotatedAll i xs (observer w))
               else [])
      /\ forLog `sublist_of` annotatedAll i xs (observer w)
      /\ forListener
         = (if listenerEnabled i then annotatedAll i xs (observer w) else []))
  /\ (exists r w',
      ProcessSingle i p w = Done r w'
      /\ heap w'
         = (if shouldAddPreviousTime i
            then <[p := setPt impression
                          (previousTime impression (observer w))]> (heap w)
            else heap w)).
Proof.
  intros Hg Hp Hs. split.
  - rewrite (ProcessImpressions_run i s xs w Hg Hs). cbv zeta.
    eexists _, _, _. split; [reflexivity|]. cbn [heap trace].
    split; [done|]. split; [done|].
    rewrite !ptWritesOf_app, ptWritesOf_passes. cbn [ptWritesOf flat_map].
    rewrite app_nil_r. split; [done|].
    rewrite listenedOf_all, passes_annotatedAll. split; [|done].
    rewrite <- (passes_annotatedAll i xs (observer w) (ticks w)).
    apply loggedOf_sublist.
  - rewrite (ProcessSingle_run i p impression w Hg Hp). cbv zeta.
    eexists _, _. split; [reflexivity|]. cbn [heap]. unfold annotated.
    by destruct (shouldAddPreviousTime i).
Qed.

(** ** Beyond the claims: panics *)

Lemma counterGuarded_false i :
  counterGuarded i = false <->
  isOptimized i = true /\ impressionsCounter i = NilCounter.
Proof.
  unfold counterGuarded.
  destruct (isOptimized i), (impressionsCounter i); cbn; intuition congruence.
Qed.

(** A manager that claims optimization without a counter panics in
    [ProcessSingle] too, once the impression has been read. *)
Lemma ProcessSingle_unguarded i p impression w :
  heap w !! p = Some impression ->
  isOptimized i = true -> impressionsCounter i = NilCounter ->
  ProcessSingle i p w = Abort NilCounterDeref.
Proof.
  intros Hp Ho Hc.
  unfold ProcessSingle, mbind, M_bind, mret, M_ret, testAndSet, timeNow,
    load, storePt.
  rewrite Ho, Hc.
  destruct (shouldAddPreviousTime i);
    rewrite ?Hp;
    try destruct (TestAndSet (FeatureName impression) impression (observer w))
      as [[pt err] o'];
    repeat first
      [ rewrite Hp
      | rewrite (lookup_insert_eq (heap w))
      | progress cbn [observer heap ticks trace fst snd negb Inc] ];
    reflexivity.
Qed.

(** X1.  What [ProcessSingle] does on any manager and any pointer.  It
    panics on the impression exactly when the pointer is nil and one of
    [shouldAddPreviousTime], [isOptimized] makes it read through the
    pointer; it panics on the counter exactly when the pointer is good,
    [isOptimized] is set and the counter is nil; and on a nil pointer with
    both flags off it returns [(true, listenerEnabled)], having done nothing
    but read the clock. *)
Theorem X1_ProcessSingle_panics_exactly i p w :
  (ProcessSingle i p w = Abort NilImpressionDeref <->
   heap w !! p = None
   /\ (shouldAddPreviousTime i = true \/ isOptimized i = true))
  /\ (ProcessSingle i p w = Abort NilCounterDeref <->
      is_Some (heap w !! p)
      /\ isOptimized i = true /\ impressionsCounter i = NilCounter)
  /\ (heap w !! p = None ->
      shouldAddPreviousTime i = false -> isOptimized i = false ->
      ProcessSingle i p w
      = Done (true, listenerEnabled i)
             {| observer := observer w; heap := heap w;
                ticks := S (ticks w); trace := trace w |}).
Proof.
  destruct (heap w !! p) as [x|] eqn:Hp.
  - destruct (counterGuarded i) eqn:Hg.
    + rewrite (ProcessSingle_run i p x w Hg Hp). cbv zeta.
      split; [|split]; [split | split |]; try done.
      * by intros [? _].
      * intros (_ & Ho & Hc).
        rewrite (counterGuarded_nonNil i Hg Ho) in Hc. discriminate.
    + apply counterGuarded_false in Hg as [Ho Hc].
      rewrite (ProcessSingle_unguarded i p x w Hp Ho Hc).
      split; [|split]; [split | split |]; try done.
      by intros [? _].
  - rewrite (ProcessSingle_nil i p w Hp).
    destruct (shouldAddPreviousTime i), (isOptimized i); cbn;
      (split; [|split]; [split | split |]); try done;
      try (intros [_ [?|?]]; done); try (intros [[? ?] _]; done);
      try (intros _; split; [done|]; auto).
Qed.



(** ** Beyond the claims: the constructor *)

(** X3.  [NewImpressionManager] fails exactly when the observer cannot be
    built with the capacity [lastSeenCacheSize], and hands that error on as
    it is; it succeeds exactly when the observer is built, and returns that
    observer.  Neither the configuration nor the counter can make it
    fail. *)
Theorem X3_constructor_fails_with_observer {Err ManagerConfig : Type}
    (NewImpressionObserver : Z -> ObsState + Err)
    (ListenerEnabled ShouldAddPreviousTime ShouldBeOptimized
       : ManagerConfig -> bool)
    managerConfig impressionCounter :
  (forall err,
      NewImpressionManager NewImpressionObserver ListenerEnabled
        ShouldAddPreviousTime ShouldBeOptimized managerConfig
        impressionCounter = inr err
      <-> NewImpressionObserver 500000%Z = inr err)
  /\ (forall o,
      (exists i,
          NewImpressionManager NewImpressionObserver ListenerEnabled
            ShouldAddPreviousTime ShouldBeOptimized managerConfig
            impressionCounter = inl (i, o))
      <-> NewImpressionObserver 500000%Z = inl o).
Proof.
  unfold NewImpressionManager, lastSeenCacheSize.
  destruct (NewImpressionObserver 500000%Z) as [o'|e]; split.
  - intros err. split; intros H; discriminate H.
  - intros o. split; [intros [i [= _ ->]]; done|].
    intros [= ->]. by eexists.
  - intros err. split; intros [= ->]; done.
  - intros o. split; [intros [i H]; discriminate H | intros H; discriminate H].
Qed.


(** ** Beyond the claims: batches *)

Lemma passes_app i xs ys : forall o k,
  passes i (xs ++ ys) o k
  = passes i xs o k ++ passes i ys (observedAll i xs o) (length xs + k).
Proof.
  induction xs as [|x xs IH]; intros o k; [done|].
  cbn [app passes observedAll length]. rewrite IH.
  by rewrite Nat.add_succ_r.
Qed.

Lemma observedAll_app i xs ys o :
  observedAll i (xs ++ ys) o = observedAll i ys (observedAll i xs o).
Proof. revert o. induction xs as [|x xs IH]; intros o; [done|]. apply IH. Qed.

Lemma passes_length i xs : forall o k, length (passes i xs o k) = length xs.
Proof.
  induction xs as [|x xs IH]; intros o k; [done|]. cbn. by rewrite IH.
Qed.

Lemma readSlice_app h b n1 n2 xs ys :
  readSlice h (mkSlice b n1) = Some xs ->
  readSlice h (mkSlice (b + n1) n2) = Some ys ->
  readSlice h (mkSlice b (n1 + n2)) = Some (xs ++ ys).
Proof.
  unfold readSlice, cells. cbn [base len]. rewrite !mapM_Some.
  intros H1 H2. rewrite seq_app. by apply Forall2_app.
Qed.

(** X5.  Cutting a batch in two.  Two calls of [ProcessImpressions] on the
    two halves of a slice, one after the other, return lists that
    concatenate to the lists of one call on the whole slice, and leave the
    same observer, clock, memory and counter calls; the two statistics they
    report add up to the one statistic of the whole. *)
Theorem X5_batch_splits i w b n1 n2 xs ys :
  counterGuarded i = true ->
  readSlice (heap w) (mkSlice b n1) = Some xs ->
  readSlice (heap w) (mkSlice (b + n1) n2) = Some ys ->
  exists forLog1 forListener1 w1 forLog2 forListener2 w2
         forLog forListener w' d1 d2,
    ProcessImpressions i (mkSlice b n1) w = Done (forLog1, forListener1) w1
    /\ ProcessImpressions i (mkSlice (b + n1) n2) w1
       = Done (forLog2, forListener2) w2
    /\ ProcessImpressions i (mkSlice b (n1 + n2)) w
       = Done (forLog, forListener) w'
    /\ forLog = forLog1 ++ forLog2
    /\ forListener = forListener1 ++ forListener2
    /\ observer w' = observer w2
    /\ heap w' = heap w2
    /\ ticks w' = ticks w2
    /\ incsOf (trace w') = incsOf (trace w2)
    /\ ptWritesOf (trace w') = ptWritesOf (trace w2)
    /\ statsOf (trace w2)
       = statsOf (trace w)
         ++ [(ImpressionsDeduped, d1); (ImpressionsDeduped, d2)]
    /\ statsOf (trace w')
       = statsOf (trace w) ++ [(ImpressionsDeduped, (d1 + d2)%Z)].
Proof.
  intros Hg H1 H2.
  pose proof (readSlice_app _ _ _ _ _ _ H1 H2) as H12.
  eexists _, _, _, _, _, _, _, _, _, _, _.
  split.
  { rewrite (ProcessImpressions_run i _ xs w Hg H1). cbv zeta. reflexivity. }
  split.
  { rewrite (ProcessImpressions_run i _ ys _ Hg); [|exact H2].
    cbv zeta. reflexivity. }
  split.
  { rewrite (ProcessImpressions_run i _ (xs ++ ys) w Hg H12). cbv zeta.
    reflexivity. }
  cbn [observer heap ticks trace].
  rewrite passes_app, observedAll_app.
  unfold loggedOf, listenedOf, eventsOf.
  rewrite !flat_map_app, !length_app.
  rewrite !statsOf_app, !incsOf_app, !ptWritesOf_app.
  fold (eventsOf (passes i xs (observer w) (ticks w))).
  fold (eventsOf (passes i ys (observedAll i xs (observer w))
                    (length xs + ticks w))).
  rewrite !statsOf_passes. cbn [statsOf incsOf ptWritesOf flat_map app].
  rewrite !app_nil_r, <- !app_assoc. cbn [app].
  split; [done|]. split; [done|]. split; [done|]. split; [done|].
  split; [lia|]. split; [done|]. split; [done|].
  split; [reflexivity|]. do 3 f_equal. lia.
Qed.

Lemma loggedOf_unoptimized i ps :
  isOptimized i = false -> loggedOf i ps = map (fun p => fst (fst p)) ps.
Proof.
  intros Ho. induction ps as [|p ps IH]; [done|].
  rewrite loggedOf_cons, IH. unfold toLogCond. by rewrite Ho.
Qed.

Lemma unoptimized_guarded i : isOptimized i = false -> counterGuarded i = true.
Proof. unfold counterGuarded. by intros ->. Qed.

(** X6.  Without optimization nothing is suppressed, whatever the observer
    answers and whether or not there is a counter: [ProcessSingle] answers
    [toLog = true], [forLog] is the whole batch as annotated, the statistic
    reported is 0 and the counter receives nothing. *)
Theorem X6_unoptimized_logs_everything i w p impression s xs :
  isOptimized i = false ->
  heap w !! p = Some impression ->
  readSlice (heap w) s = Some xs ->
  (exists toListener w',
      ProcessSingle i p w = Done (true, toListener) w'
      /\ incsOf (trace w') = incsOf (trace w))
  /\ (exists forLog forListener w',
      ProcessImpressions i s w = Done (forLog, forListener) w'
      /\ forLog = annotatedAll i xs (observer w)
      /\ length forLog = length xs
      /\ statsOf (trace w')
         = statsOf (trace w) ++ [(ImpressionsDeduped, 0%Z)]
      /\ incsOf (trace w') = incsOf (trace w)).
Proof.
  intros Ho Hp Hs. pose proof (unoptimized_guarded i Ho) as Hg. split.
  - rewrite (ProcessSingle_run i p impression w Hg Hp). cbv zeta.
    unfold toLogCond. rewrite Ho. cbn [negb orb].
    eexists _, _. split; [reflexivity|]. cbn [trace].
    by rewrite incsOf_app, incsOf_passEvents, Ho, app_nil_r.
  - rewrite (ProcessImpressions_run i s xs w Hg Hs). cbv zeta.
    eexists _, _, _. split; [reflexivity|]. cbn [trace].
    rewrite (loggedOf_unoptimized i _ Ho), passes_annotatedAll,
      annotatedAll_length.
    rewrite !statsOf_app, !incsOf_app, statsOf_passes, incsOf_passes, Ho.
    cbn [statsOf incsOf flat_map app]. rewrite !app_nil_r.
    repeat split; try done. do 3 f_equal. lia.
Qed.

(** X7.  With the listener on, whatever is logged is also handed to the
    listener, in the same order: [forLog] is a subsequence of [forListener].
    If moreover optimization is off, the two lists are equal. *)
Theorem X7_logged_is_listened i w s xs :
  counterGuarded i = true ->
  listenerEnabled i = true ->
  readSlice (heap w) s = Some xs ->
  exists forLog forListener w',
    ProcessImpressions i s w = Done (forLog, forListener) w'
    /\ forLog `sublist_of` forListener
    /\ length forLog <= length forListener
    /\ (isOptimized i = false -> forLog = forListener).
Proof.
  intros Hg Hl Hs.
  rewrite (ProcessImpressions_run i s xs w Hg Hs). cbv zeta.
  eexists _, _, _. split; [reflexivity|].
  rewrite listenedOf_all, Hl.
  pose proof (loggedOf_sublist i (passes i xs (observer w) (ticks w)))
    as Hsub.
  split; [done|]. split; [by apply sublist_length|].
  intros Ho. by apply loggedOf_unoptimized.
Qed.

Lemma observedAll_off i xs o :
  shouldAddPreviousTime i = false -> observedAll i xs o = o.
Proof.
  intros Hs. revert o. induction xs as [|x xs IH]; intros o; [done|].
  cbn [observedAll]. unfold observed at 1. rewrite Hs. apply IH.
Qed.

(** X8.  With [shouldAddPreviousTime] off the observer is never consulted:
    both entry points leave its state as it was. *)
Theorem X8_observer_untouched_when_annotation_off i w p impression s xs :
  counterGuarded i = true ->
  shouldAddPreviousTime i = false ->
  heap w !! p = Some impression ->
  readSlice (heap w) s = Some xs ->
  (exists r w', ProcessSingle i p w = Done r w' /\ observer w' = observer w)
  /\ (exists r w',
      ProcessImpressions i s w = Done r w' /\ observer w' = observer w).
Proof.
  intros Hg Hoff Hp Hs. split.
  - rewrite (ProcessSingle_run i p impression w Hg Hp). cbv zeta.
    eexists _, _. split; [reflexivity|]. cbn [observer].
    unfold observed. by rewrite Hoff.
  - rewrite (ProcessImpressions_run i s xs w Hg Hs). cbv zeta.
    eexists _, _. split; [reflexivity|]. cbn [observer].
    by apply observedAll_off.
Qed.

(** X9.  The books of a batch.  The clock is read once per impression; the
    statistic is the last event of the call and the only one of its kind;
    and under optimization the counter receives as many increments as there
    are impressions logged and impressions reported as deduplicated
    together, so every suppressed impression is counted. *)
Theorem X9_increments_cover_logged_and_deduped i w s xs :
  counterGuarded i = true ->
  readSlice (heap w) s = Some xs ->
  exists forLog forListener w' events deduped,
    ProcessImpressions i s w = Done (forLog, forListener) w'
    /\ ticks w' = length xs + ticks w
    /\ trace w'
       = trace w ++ events
         ++ [EvRecordImpressionsStats ImpressionsDeduped deduped]
    /\ statsOf events = []
    /\ (isOptimized i = true ->
        Z.of_nat (length (incsOf events))
        = (Z.of_nat (length forLog) + deduped)%Z)
    /\ (isOptimized i = false -> incsOf events = [] /\ deduped = 0%Z).
Proof.
  intros Hg Hs.
  rewrite (ProcessImpressions_run i s xs w Hg Hs). cbv zeta.
  eexists _, _, _, _, _. split; [reflexivity|]. cbn [ticks trace].
  split; [done|]. split; [by rewrite <- app_assoc|].
  split; [apply statsOf_passes|].
  rewrite incsOf_passes. split; intros Ho; rewrite Ho.
  - rewrite length_imap. lia.
  - split; [done|].
    rewrite (loggedOf_unoptimized i _ Ho), passes_annotatedAll,
      annotatedAll_length. lia.
Qed.

Lemma passes_listener c a o l l' xs : forall ob k,
  passes (mkManager c a o l) xs ob k = passes (mkManager c a o l') xs ob k.
Proof.
  induction xs as [|x xs IH]; intros ob k; [done|]. cbn. by rewrite IH.
Qed.

Lemma loggedOf_listener c a o l l' ps :
  loggedOf (mkManager c a o l) ps = loggedOf (mkManager c a o l') ps.
Proof. reflexivity. Qed.

Lemma observedAll_listener c a o l l' xs : forall ob,
  observedAll (mkManager c a o l) xs ob
  = observedAll (mkManager c a o l') xs ob.
Proof. induction xs as [|x xs IH]; intros ob; [done|]. cbn. by rewrite IH. Qed.

(** X10.  The listener flag has no part in logging.  Two managers that
    differ in [listenerEnabled] only take the same logging decisions, return
    the same [forLog] and leave the same world behind: same observer, same
    memory, same clock, same events, the statistic included. *)
Theorem X10_listener_flag_does_not_affect_logging i i' w p impression s xs :
  impressionsCounter i = impressionsCounter i' ->
  shouldAddPreviousTime i = shouldAddPreviousTime i' ->
  isOptimized i = isOptimized i' ->
  counterGuarded i = true ->
  heap w !! p = Some impression ->
  readSlice (heap w) s = Some xs ->
  (exists toLog toListener toListener' w',
      ProcessSingle i p w = Done (toLog, toListener) w'
      /\ ProcessSingle i' p w = Done (toLog, toListener') w')
  /\ (exists forLog forListener forListener' w',
      ProcessImpressions i s w = Done (forLog, forListener) w'
      /\ ProcessImpressions i' s w = Done (forLog, forListener') w').
Proof.
  destruct i as [c a o l], i' as [c' a' o' l'].
  cbn [impressionsCounter shouldAddPreviousTime isOptimized].
  intros <- <- <- Hg Hp Hs.
  assert (Hg' : counterGuarded (mkManager c a o l') = true) by exact Hg.
  split.
  - rewrite (ProcessSingle_run _ p impression w Hg Hp).
    rewrite (ProcessSingle_run _ p impression w Hg' Hp). cbv zeta.
    eexists _, _, _, _. split; reflexivity.
  - rewrite (ProcessImpressions_run _ s xs w Hg Hs).
    rewrite (ProcessImpressions_run _ s xs w Hg' Hs). cbv zeta.
    rewrite (passes_listener c a o l l'), (loggedOf_listener c a o l l'),
      (observedAll_listener c a o l l').
    eexists _, _, _, _. split; reflexivity.
Qed.

(** ** Beyond the claims: shared memory *)

Lemma readSlice_lookup h s xs k x :
  readSlice h s = Some xs -> xs !! k = Some x -> h !! (base s + k) = Some x.
Proof.
  intros Hs Hk. apply readSlice_Some in Hs.
  apply Forall2_same_length_lookup in Hs as [Hlen Hall].
  assert (Hlt : k < len s).
  { apply lookup_lt_Some in Hk. unfold cells in Hlen.
    rewrite length_seq in Hlen. lia. }
  apply (Hall k); [|done]. unfold cells. by apply lookup_seq_lt.
Qed.

Lemma readSlice_insert h s xs k x y :
  readSlice h s = Some xs -> xs !! k = Some x ->
  readSlice (<[base s + k := y]> h) s = Some (<[k := y]> xs).
Proof.
  intros Hs Hk. pose proof (readSlice_Some _ _ _ Hs) as HF.
  apply Forall2_same_length_lookup in HF as [Hlen Hall].
  unfold readSlice. apply mapM_Some, Forall2_same_length_lookup.
  split; [by rewrite length_insert|].
  intros j c z Hc Hz. unfold cells in Hc.
  apply lookup_seq in Hc as [-> Hj].
  destruct (decide (j = k)) as [->|Hne].
  - rewrite lookup_insert_eq.
    rewrite list_lookup_insert_eq in Hz by (by apply lookup_lt_Some in Hk).
    done.
  - rewrite lookup_insert_ne by lia.
    rewrite list_lookup_insert_ne in Hz by done.
    apply (Hall j); [|done]. unfold cells. by apply lookup_seq_lt.
Qed.

(** X11.  [ProcessSingle] through a pointer into a slice writes into the
    slice.  After the call the slice holds the impression as annotated in the
    cell the pointer designates and what it held before in every other
    cell, so a later [ProcessImpressions] on the slice starts from the
    annotated impression; no address but the pointer's is written. *)
Theorem X11_single_writes_into_the_slice i w s xs k impression :
  counterGuarded i = true ->
  readSlice (heap w) s = Some xs ->
  xs !! k = Some impression ->
  exists r w',
    ProcessSingle i (base s + k) w = Done r w'
    /\ readSlice (heap w') s
       = Some (<[k := annotated i impression (observer w)]> xs)
    /\ (forall q, q <> base s + k -> heap w' !! q = heap w !! q).
Proof.
  intros Hg Hs Hk.
  pose proof (readSlice_lookup _ _ _ _ _ Hs Hk) as Hp.
  rewrite (ProcessSingle_run i _ impression w Hg Hp). cbv zeta.
  eexists _, _. split; [reflexivity|]. cbn [heap].
  unfold annotated. destruct (shouldAddPreviousTime i).
  - split; [by apply (readSlice_insert _ _ _ _ impression)|].
    intros q Hq. by rewrite lookup_insert_ne.
  - split; [|done]. by rewrite list_insert_id.
Qed.

End Manager.

(** ** The code on the sample inputs *)

(** The first scenario of the specification: optimization and annotation on,
    listener off; the same identity is processed at 100 and again at 150, in
    the same window.  The first call logs with [Pt] 0, the second is
    suppressed with [Pt] 100, and the counter is incremented twice. *)
Example scenario_optimized_suppresses_repeat :
  let i := {| impressionsCounter := CounterPtr;
              shouldAddPreviousTime := true;
              isOptimized := true;
              listenerEnabled := false |} in
  match ProcessSingle cacheTestAndSet sampleClock truncateToHour i 0%nat
          sampleWorld with
  | Done r1 w1 =>
      match ProcessSingle cacheTestAndSet sampleClock truncateToHour i 1%nat
              w1 with
      | Done r2 w2 =>
          r1 = (true, false) /\ Pt <$> heap w1 !! 0%nat = Some 0%Z
          /\ r2 = (false, false) /\ Pt <$> heap w2 !! 1%nat = Some 100%Z
          /\ incsOf (trace w2)
             = [("f1"%string, 100%Z, 1%Z); ("f1"%string, 150%Z, 1%Z)]
      | Abort _ => False
      end
  | Abort _ => False
  end.
Proof. vm_compute. repeat split. Qed.

(** The second scenario: without optimization both calls log, and the second
    impression still gets [Pt] 100. *)
Example scenario_plain_logs_repeat :
  let i := {| impressionsCounter := NilCounter;
              shouldAddPreviousTime := true;
              isOptimized := false;
              listenerEnabled := false |} in
  match ProcessSingle cacheTestAndSet sampleClock truncateToHour i 0%nat
          sampleWorld with
  | Done r1 w1 =>
      match ProcessSingle cacheTestAndSet sampleClock truncateToHour i 1%nat
              w1 with
      | Done r2 w2 =>
          r1 = (true, false) /\ r2 = (true, false)
          /\ Pt <$> heap w2 !! 1%nat = Some 100%Z
          /\ incsOf (trace w2) = []
      | Abort _ => False
      end
  | Abort _ => False
  end.
Proof. vm_compute. repeat split. Qed.

(** The sample batch under the optimizing manager: the repeat within the
    hour is dropped, the repeat two hours later is logged again, the
    listener gets all three, one impression is reported as deduplicated, and
    the caller's cells are as they were. *)
Example sample_batch_run :
  ProcessImpressions cacheTestAndSet sampleClock truncateToHour
    optimizedManager (mkSlice 0 3) sampleWorld
  = Done ([sighting 100 0; sighting 7200000000200 150],
          [sighting 100 0; sighting 150 100; sighting 7200000000200 150])
         {| observer :=
              [(identityOf "f1" (sighting 100 0), 7200000000200%Z)];
            heap := heap sampleWorld;
            ticks := 3;
            trace := [EvSetPt LocalCopy 0; EvInc "f1" 100 1;
                      EvSetPt LocalCopy 100; EvInc "f1" 150 1;
                      EvSetPt LocalCopy 150; EvInc "f1" 7200000000200 1;
                      EvRecordImpressionsStats ImpressionsDeduped 1] |}.
Proof. vm_compute. reflexivity. Qed.

(** The empty batch: nothing is logged, and the telemetry still gets its
    one record, of value 0. *)
Example empty_batch_reports_zero :
  ProcessImpressions cacheTestAndSet sampleClock truncateToHour
    optimizedManager (mkSlice 0 0) sampleWorld
  = Done ([], [])
         {| observer := [];
            heap := heap sampleWorld;
            ticks := 0;
            trace := [EvRecordImpressionsStats ImpressionsDeduped 0] |}.
Proof. reflexivity. Qed.

(** C4 as stated fails: an impression that arrives with [Pt] 5 and whose
    identity the observer has never seen leaves [ProcessSingle] with [Pt]
    0.  The write lowered [Pt] and cleared a non-zero value. *)
Lemma C4_pt_cleared_counterexample :
  exists w',
    heap staleWorld !! 0%nat = Some (sighting 100 5)
    /\ ProcessSingle cacheTestAndSet sampleClock truncateToHour
         optimizedManager 0%nat staleWorld
       = Done (true, true) w'
    /\ heap w' !! 0%nat = Some (sighting 100 0)
    /\ (Pt (sighting 100 0) < Pt (sighting 100 5))%Z
    /\ Pt (sighting 100 5) <> 0%Z
    /\ Pt (sighting 100 0) = 0%Z.
Proof.
  exists {| observer := [(identityOf "f1" (sighting 100 5), 100%Z)];
            heap := <[0%nat := sighting 100 0]> (heap staleWorld);
            ticks := 1;
            trace := [EvSetPt (Through 0%nat) 0; EvInc "f1" 100 1] |}.
  split; [reflexivity|]. split; [vm_compute; reflexivity|].
  split; [reflexivity|]. cbn. repeat split; lia.
Qed.

(** C1 on the sample batch and on its second impression, under the
    optimizing manager. *)
Lemma C1_logged_iff_condition_witness :
  let ProcessSingle := ProcessSingle cacheTestAndSet sampleClock
                         truncateToHour in
  let processImpression := processImpression cacheTestAndSet sampleClock
                             truncateToHour in
  let ProcessImpressions := ProcessImpressions cacheTestAndSet sampleClock
                              truncateToHour in
  let annotated := annotated cacheTestAndSet in
  let passes := passes cacheTestAndSet sampleClock in
  let shouldLog := shouldLog truncateToHour in
  let wallclock := sampleClock in
  let i := optimizedManager in
  let w := sampleWorld in
  let p := 1%nat in
  let impression := sighting 150 0 in
  let s := mkSlice 0 3 in
  let xs := sampleBatch in
  let forLog := [] : list Impression in
  let forListener := [] : list Impression in
  counterGuarded i = true /\
  heap w !! p = Some impression /\
  readSlice (heap w) s = Some xs /\
  (let now := wallclock (ticks w) in
  let x := annotated i impression (observer w) in
  (exists toLog toListener w',
      ProcessSingle i p w = Done (toLog, toListener) w'
      /\ heap w' !! p = Some x
      /\ (toLog = true <-> shouldLog i x now))
  /\ (exists forLog' forListener' w',
      processImpression i impression forLog forListener w
      = Done (forLog', forListener') w'
      /\ (shouldLog i x now -> forLog' = forLog ++ [x])
      /\ (~ shouldLog i x now -> forLog' = forLog))
  /\ (exists forLogAll forListenerAll w',
      ProcessImpressions i s w = Done (forLogAll, forListenerAll) w'
      /\ forLogAll
         = map (fun q => fst (fst q))
               (filter (fun q => shouldLog i (fst (fst q)) (snd (fst q)))
                       (passes i xs (observer w) (ticks w))))).
Proof.
  cbv zeta.
  split; [reflexivity|]. split; [reflexivity|]. split; [reflexivity|].
  apply (C1_logged_iff_condition
           cacheTestAndSet sampleClock truncateToHour
           optimizedManager sampleWorld 1%nat (sighting 150 0) [] []
           (mkSlice 0 3) sampleBatch);
    reflexivity.
Defined.

(** C2 on the sample batch. *)
Lemma C2_deduped_reported_once_witness :
  let ProcessImpressions := ProcessImpressions cacheTestAndSet sampleClock
                              truncateToHour in
  let i := optimizedManager in
  let w := sampleWorld in
  let s := mkSlice 0 3 in
  let xs := sampleBatch in
  counterGuarded i = true /\
  readSlice (heap w) s = Some xs /\
  (exists forLog forListener w',
    ProcessImpressions i s w = Done (forLog, forListener) w'
    /\ statsOf (trace w')
       = statsOf (trace w)
         ++ [(ImpressionsDeduped,
              (Z.of_nat (length xs) - Z.of_nat (length forLog))%Z)]
    /\ (0 <= Z.of_nat (length xs) - Z.of_nat (length forLog)
         <= Z.of_nat (length xs))%Z
    /\ (xs = [] ->
        statsOf (trace w') = statsOf (trace w) ++ [(ImpressionsDeduped, 0%Z)])).
Proof.
  cbv zeta.
  split; [reflexivity|]. split; [reflexivity|].
  apply (C2_deduped_reported_once
           cacheTestAndSet sampleClock truncateToHour
           optimizedManager (mkSlice 0 3) sampleBatch sampleWorld);
    reflexivity.
Defined.

(** C3 on the sample batch and on its second impression. *)
Lemma C3_one_increment_per_impression_witness :
  let ProcessSingle := ProcessSingle cacheTestAndSet sampleClock
                         truncateToHour in
  let processImpression := processImpression cacheTestAndSet sampleClock
                             truncateToHour in
  let ProcessImpressions := ProcessImpressions cacheTestAndSet sampleClock
                              truncateToHour in
  let wallclock := sampleClock in
  let i := optimizedManager in
  let w := sampleWorld in
  let p := 1%nat in
  let impression := sighting 150 0 in
  let s := mkSlice 0 3 in
  let xs := sampleBatch in
  let forLog := [] : list Impression in
  let forListener := [] : list Impression in
  counterGuarded i = true /\
  heap w !! p = Some impression /\
  readSlice (heap w) s = Some xs /\
  (let one := if isOptimized i
             then [(FeatureName impression, wallclock (ticks w), 1%Z)]
             else [] in
  (exists r w',
      ProcessSingle i p w = Done r w'
      /\ incsOf (trace w') = incsOf (trace w) ++ one)
  /\ (exists r w',
      processImpression i impression forLog forListener w = Done r w'
      /\ incsOf (trace w') = incsOf (trace w) ++ one)
  /\ (exists r w',
      ProcessImpressions i s w = Done r w'
      /\ incsOf (trace w')
         = incsOf (trace w)
           ++ (if isOptimized i
               then imap (fun j x =>
                            (FeatureName x, wallclock (ticks w + j), 1%Z)) xs
               else []))).
Proof.
  cbv zeta.
  split; [reflexivity|]. split; [reflexivity|]. split; [reflexivity|].
  apply (C3_one_increment_per_impression
           cacheTestAndSet sampleClock truncateToHour
           optimizedManager sampleWorld 1%nat (sighting 150 0) [] []
           (mkSlice 0 3) sampleBatch);
    reflexivity.
Defined.

(** C4 on an impression that arrives with a [Pt] of its own. *)
Lemma C4_pt_written_at_most_once_witness :
  let ProcessSingle := ProcessSingle cacheTestAndSet sampleClock
                         truncateToHour in
  let processImpression := processImpression cacheTestAndSet sampleClock
                             truncateToHour in
  let previousTime := previousTime cacheTestAndSet in
  let i := optimizedManager in
  let w := staleWorld in
  let p := 0%nat in
  let impression := sighting 100 5 in
  let forLog := [] : list Impression in
  let forListener := [] : list Impression in
  counterGuarded i = true /\
  heap w !! p = Some impression /\
  (let v := previousTime impression (observer w) in
  (exists r w' ws,
      ProcessSingle i p w = Done r w'
      /\ ptWritesOf (trace w') = ptWritesOf (trace w) ++ ws
      /\ length ws <= 1
      /\ (shouldAddPreviousTime i = false ->
          ws = [] /\ heap w' !! p = Some impression)
      /\ (shouldAddPreviousTime i = true ->
          ws = [(Through p, v)] /\ heap w' !! p = Some (setPt impression v)))
  /\ (exists r w' ws,
      processImpression i impression forLog forListener w = Done r w'
      /\ ptWritesOf (trace w') = ptWritesOf (trace w) ++ ws
      /\ length ws <= 1
      /\ (shouldAddPreviousTime i = false -> ws = [])
      /\ (shouldAddPreviousTime i = true -> ws = [(LocalCopy, v)]))).
Proof.
  cbv zeta.
  split; [reflexivity|]. split; [reflexivity|].
  apply (C4_pt_written_at_most_once
           cacheTestAndSet sampleClock truncateToHour
           optimizedManager staleWorld 0%nat (sighting 100 5) [] []);
    reflexivity.
Defined.

(** C5 on the second impression of the sample batch. *)
Lemma C5_single_agrees_with_batch_step_witness :
  let ProcessSingle := ProcessSingle cacheTestAndSet sampleClock
                         truncateToHour in
  let processImpression := processImpression cacheTestAndSet sampleClock
                             truncateToHour in
  let ProcessImpressions := ProcessImpressions cacheTestAndSet sampleClock
                              truncateToHour in
  let i := optimizedManager in
  let w := sampleWorld in
  let p := 1%nat in
  let impression := sighting 150 0 in
  let forLog := [] : list Impression in
  let forListener := [] : list Impression in
  counterGuarded i = true /\
  heap w !! p = Some impression /\
  (exists toLog toListener w1 forLog' forListener' w2 forLog1 forListener1 w3 x,
    ProcessSingle i p w = Done (toLog, toListener) w1
    /\ processImpression i impression forLog forListener w
       = Done (forLog', forListener') w2
    /\ ProcessImpressions i (mkSlice p 1) w = Done (forLog1, forListener1) w3
    /\ heap w1 !! p = Some x
    /\ forLog' = (if toLog then forLog ++ [x] else forLog)
    /\ forListener' = (if toListener then forListener ++ [x] else forListener)
    /\ forLog1 = (if toLog then [x] else [])
    /\ forListener1 = (if toListener then [x] else [])
    /\ observer w1 = observer w2 /\ observer w3 = observer w1
    /\ ticks w1 = ticks w2 /\ ticks w3 = ticks w1
    /\ incsOf (trace w1) = incsOf (trace w2)
    /\ incsOf (trace w3) = incsOf (trace w1)
    /\ map snd (ptWritesOf (trace w1)) = map snd (ptWritesOf (trace w2))
    /\ statsOf (trace w1) = statsOf (trace w)
    /\ statsOf (trace w2) = statsOf (trace w)
    /\ statsOf (trace w3)
       = statsOf (trace w)
         ++ [(ImpressionsDeduped, if toLog then 0%Z else 1%Z)]).
Proof.
  cbv zeta.
  split; [reflexivity|]. split; [reflexivity|].
  apply (C5_single_agrees_with_batch_step
           cacheTestAndSet sampleClock truncateToHour
           optimizedManager sampleWorld 1%nat (sighting 150 0) [] []);
    reflexivity.
Defined.

(** C6 on the sample batch, under a manager that neither annotates nor
    optimizes. *)
Lemma C6_pt_untouched_when_annotation_off_witness :
  let ProcessSingle := ProcessSingle cacheTestAndSet sampleClock
                         truncateToHour in
  let ProcessImpressions := ProcessImpressions cacheTestAndSet sampleClock
                              truncateToHour in
  let i := plainManager in
  let w := sampleWorld in
  let p := 1%nat in
  let impression := sighting 150 0 in
  let s := mkSlice 0 3 in
  let xs := sampleBatch in
  counterGuarded i = true /\
  shouldAddPreviousTime i = false /\
  heap w !! p = Some impression /\
  readSlice (heap w) s = Some xs /\
  ((exists r w',
      ProcessSingle i p w = Done r w'
      /\ heap w' = heap w
      /\ heap w' !! p = Some impression
      /\ ptWritesOf (trace w') = ptWritesOf (trace w))
  /\ (exists forLog forListener w',
      ProcessImpressions i s w = Done (forLog, forListener) w'
      /\ forLog `sublist_of` xs
      /\ forListener = (if listenerEnabled i then xs else [])
      /\ ptWritesOf (trace w') = ptWritesOf (trace w))).
Proof.
  cbv zeta.
  split; [reflexivity|]. split; [reflexivity|].
  split; [reflexivity|]. split; [reflexivity|].
  apply (C6_pt_untouched_when_annotation_off
           cacheTestAndSet sampleClock truncateToHour
           plainManager sampleWorld 1%nat (sighting 150 0) (mkSlice 0 3)
           sampleBatch);
    reflexivity.
Defined.

(** C7 on the sample batch and on its second impression. *)
Lemma C7_listener_decision_is_flag_witness :
  let ProcessSingle := ProcessSingle cacheTestAndSet sampleClock
                         truncateToHour in
  let ProcessImpressions := ProcessImpressions cacheTestAndSet sampleClock
                              truncateToHour in
  let annotatedAll := annotatedAll cacheTestAndSet in
  let i := optimizedManager in
  let w := sampleWorld in
  let p := 1%nat in
  let impression := sighting 150 0 in
  let s := mkSlice 0 3 in
  let xs := sampleBatch in
  counterGuarded i = true /\
  heap w !! p = Some impression /\
  readSlice (heap w) s = Some xs /\
  ((exists toLog toListener w',
      ProcessSingle i p w = Done (toLog, toListener) w'
      /\ toListener = listenerEnabled i)
  /\ (exists forLog forListener w',
      ProcessImpressions i s w = Done (forLog, forListener) w'
      /\ (listenerEnabled i = false -> forListener = [])
      /\ (listenerEnabled i = true ->
          forListener = annotatedAll i xs (observer w)
          /\ length forListener = length xs
          /\ Forall2 (fun x y => exists v, y = setPt x v) xs forListener))).
Proof.
  cbv zeta.
  split; [reflexivity|]. split; [reflexivity|]. split; [reflexivity|].
  apply (C7_listener_decision_is_flag
           cacheTestAndSet sampleClock truncateToHour
           optimizedManager sampleWorld 1%nat (sighting 150 0) (mkSlice 0 3)
           sampleBatch);
    reflexivity.
Defined.

(** C8 on the sample batch. *)
Lemma C8_outputs_are_subsequences_witness :
  let processImpression := processImpression cacheTestAndSet sampleClock
                             truncateToHour in
  let ProcessImpressions := ProcessImpressions cacheTestAndSet sampleClock
                              truncateToHour in
  let annotatedAll := annotatedAll cacheTestAndSet in
  let i := optimizedManager in
  let w := sampleWorld in
  let s := mkSlice 0 3 in
  let xs := sampleBatch in
  let impression := sighting 150 0 in
  let forLog0 := [sighting 100 0] in
  let forListener0 := [] : list Impression in
  counterGuarded i = true /\
  readSlice (heap w) s = Some xs /\
  ((exists forLog forListener w',
      ProcessImpressions i s w = Done (forLog, forListener) w'
      /\ Forall2 (fun x y => exists v, y = setPt x v)
                 xs (annotatedAll i xs (observer w))
      /\ forLog `sublist_of` annotatedAll i xs (observer w)
      /\ forListener `sublist_of` annotatedAll i xs (observer w)
      /\ length forLog <= length xs
      /\ length forListener <= length xs)
  /\ (exists forLog forListener w',
      processImpression i impression forLog0 forListener0 w
      = Done (forLog, forListener) w'
      /\ forLog0 `prefix_of` forLog
      /\ forListener0 `prefix_of` forListener)).
Proof.
  cbv zeta.
  split; [reflexivity|]. split; [reflexivity|].
  apply (C8_outputs_are_subsequences
           cacheTestAndSet sampleClock truncateToHour
           optimizedManager sampleWorld (mkSlice 0 3) sampleBatch
           (sighting 150 0) [sighting 100 0] []);
    reflexivity.
Defined.

(** C10 on the sample batch and on its second impression. *)
Lemma C10_batch_leaves_input_untouched_witness :
  let ProcessSingle := ProcessSingle cacheTestAndSet sampleClock
                         truncateToHour in
  let ProcessImpressions := ProcessImpressions cacheTestAndSet sampleClock
                              truncateToHour in
  let annotatedAll := annotatedAll cacheTestAndSet in
  let previousTime := previousTime cacheTestAndSet in
  let i := optimizedManager in
  let w := sampleWorld in
  let p := 1%nat in
  let impression := sighting 150 0 in
  let s := mkSlice 0 3 in
  let xs := sampleBatch in
  counterGuarded i = true /\
  heap w !! p = Some impression /\
  readSlice (heap w) s = Some xs /\
  ((exists forLog forListener w',
      ProcessImpressions i s w = Done (forLog, forListener) w'
      /\ heap w' = heap w
      /\ readSlice (heap w') s = Some xs
      /\ ptWritesOf (trace w')
         = ptWritesOf (trace w)
           ++ (if shouldAddPreviousTime i
               then map (fun y => (LocalCopy, Pt y))
                        (annotatedAll i xs (observer w))
               else [])
      /\ forLog `sublist_of` annotatedAll i xs (observer w)
      /\ forListener
         = (if listenerEnabled i then annotatedAll i xs (observer w) else []))
  /\ (exists r w',
      ProcessSingle i p w = Done r w'
      /\ heap w'
         = (if shouldAddPreviousTime i
            then <[p := setPt impression
                          (previousTime impression (observer w))]> (heap w)
            else heap w))).
Proof.
  cbv zeta.
  split; [reflexivity|]. split; [reflexivity|]. split; [reflexivity|].
  apply (C10_batch_leaves_input_untouched
           cacheTestAndSet sampleClock truncateToHour
           optimizedManager sampleWorld 1%nat (sighting 150 0) (mkSlice 0 3)
           sampleBatch);
    reflexivity.
Defined.

(** C9 on a configuration that asks for optimization but comes without a
    counter: the constructor switches optimization off. *)
Lemma C9_constructor_guards_counter_witness :
  (NewImpressionManager cacheNew listenerOn addPreviousTime
     optimizeImpressions (mkFlags true true true) NilCounter
   = inl ({| impressionsCounter := NilCounter;
             shouldAddPreviousTime := true;
             isOptimized := false;
             listenerEnabled := true |}, []))
  /\
  ((NilCounter = NilCounter ->
    isOptimized {| impressionsCounter := NilCounter;
                   shouldAddPreviousTime := true;
                   isOptimized := false;
                   listenerEnabled := true |} = false)
   /\ (isOptimized {| impressionsCounter := NilCounter;
                      shouldAddPreviousTime := true;
                      isOptimized := false;
                      listenerEnabled := true |} = true ->
       impressionsCounter {| impressionsCounter := NilCounter;
                             shouldAddPreviousTime := true;
                             isOptimized := false;
                             listenerEnabled := true |} = CounterPtr)
   /\ (forall w p,
         ProcessSingle cacheTestAndSet sampleClock truncateToHour
           {| impressionsCounter := NilCounter;
              shouldAddPreviousTime := true;
              isOptimized := false;
              listenerEnabled := true |} p w
         <> Abort NilCounterDeref)
   /\ (forall w s,
         ProcessImpressions cacheTestAndSet sampleClock truncateToHour
           {| impressionsCounter := NilCounter;
              shouldAddPreviousTime := true;
              isOptimized := false;
              listenerEnabled := true |} s w
         <> Abort NilCounterDeref)).
Proof.
  split; [reflexivity|].
  apply (C9_constructor_guards_counter cacheTestAndSet sampleClock
           truncateToHour cacheNew listenerOn addPreviousTime
           optimizeImpressions (mkFlags true true true) NilCounter _ []).
  reflexivity.
Defined.

(** ** The further results on the sample inputs *)



(** X5 on the sample batch, cut after its first impression. *)
Lemma X5_batch_splits_witness :
  let ProcessImpressions := ProcessImpressions cacheTestAndSet sampleClock
                              truncateToHour in
  let i := optimizedManager in
  let w := sampleWorld in
  let b := 0 in
  let n1 := 1 in
  let n2 := 2 in
  let xs := [sighting 100 0] in
  let ys := [sighting 150 0; sighting 7200000000200 0] in
  counterGuarded i = true /\
  readSlice (heap w) (mkSlice b n1) = Some xs /\
  readSlice (heap w) (mkSlice (b + n1) n2) = Some ys /\
  (exists forLog1 forListener1 w1 forLog2 forListener2 w2
         forLog forListener w' d1 d2,
    ProcessImpressions i (mkSlice b n1) w = Done (forLog1, forListener1) w1
    /\ ProcessImpressions i (mkSlice (b + n1) n2) w1
       = Done (forLog2, forListener2) w2
    /\ ProcessImpressions i (mkSlice b (n1 + n2)) w
       = Done (forLog, forListener) w'
    /\ forLog = forLog1 ++ forLog2
    /\ forListener = forListener1 ++ forListener2
    /\ observer w' = observer w2
    /\ heap w' = heap w2
    /\ ticks w' = ticks w2
    /\ incsOf (trace w') = incsOf (trace w2)
    /\ ptWritesOf (trace w') = ptWritesOf (trace w2)
    /\ statsOf (trace w2)
       = statsOf (trace w)
         ++ [(ImpressionsDeduped, d1); (ImpressionsDeduped, d2)]
    /\ statsOf (trace w')
       = statsOf (trace w) ++ [(ImpressionsDeduped, (d1 + d2)%Z)]).
Proof.
  cbv zeta.
  split; [reflexivity|]. split; [reflexivity|].
  split; [reflexivity|].
  apply (X5_batch_splits
           cacheTestAndSet sampleClock truncateToHour
           optimizedManager sampleWorld 0 1 2 [sighting 100 0]
           [sighting 150 0; sighting 7200000000200 0]);
    reflexivity.
Defined.

(** X6 on the sample batch, under a manager that does not optimize. *)
Lemma X6_unoptimized_logs_everything_witness :
  let ProcessSingle := ProcessSingle cacheTestAndSet sampleClock
                         truncateToHour in
  let ProcessImpressions := ProcessImpressions cacheTestAndSet sampleClock
                              truncateToHour in
  let annotatedAll := annotatedAll cacheTestAndSet in
  let i := plainManager in
  let w := sampleWorld in
  let p := 1%nat in
  let impression := sighting 150 0 in
  let s := mkSlice 0 3 in
  let xs := sampleBatch in
  isOptimized i = false /\
  heap w !! p = Some impression /\
  readSlice (heap w) s = Some xs /\
  ((exists toListener w',
      ProcessSingle i p w = Done (true, toListener) w'
      /\ incsOf (trace w') = incsOf (trace w))
  /\ (exists forLog forListener w',
      ProcessImpressions i s w = Done (forLog, forListener) w'
      /\ forLog = annotatedAll i xs (observer w)
      /\ length forLog = length xs
      /\ statsOf (trace w')
         = statsOf (trace w) ++ [(ImpressionsDeduped, 0%Z)]
      /\ incsOf (trace w') = incsOf (trace w))).
Proof.
  cbv zeta.
  split; [reflexivity|]. split; [reflexivity|].
  split; [reflexivity|].
  apply (X6_unoptimized_logs_everything
           cacheTestAndSet sampleClock truncateToHour
           plainManager sampleWorld 1%nat (sighting 150 0) (mkSlice 0 3)
           sampleBatch);
    reflexivity.
Defined.

(** X7 on the sample batch. *)
Lemma X7_logged_is_listened_witness :
  let ProcessImpressions := ProcessImpressions cacheTestAndSet sampleClock
                              truncateToHour in
  let i := optimizedManager in
  let w := sampleWorld in
  let s := mkSlice 0 3 in
  let xs := sampleBatch in
  counterGuarded i = true /\
  listenerEnabled i = true /\
  readSlice (heap w) s = Some xs /\
  (exists forLog forListener w',
    ProcessImpressions i s w = Done (forLog, forListener) w'
    /\ forLog `sublist_of` forListener
    /\ length forLog <= length forListener
    /\ (isOptimized i = false -> forLog = forListener)).
Proof.
  cbv zeta.
  split; [reflexivity|]. split; [reflexivity|].
  split; [reflexivity|].
  apply (X7_logged_is_listened
           cacheTestAndSet sampleClock truncateToHour
           optimizedManager sampleWorld (mkSlice 0 3) sampleBatch);
    reflexivity.
Defined.

(** X8 on the sample batch, under a manager that does not annotate. *)
Lemma X8_observer_untouched_when_annotation_off_witness :
  let ProcessSingle := ProcessSingle cacheTestAndSet sampleClock
                         truncateToHour in
  let ProcessImpressions := ProcessImpressions cacheTestAndSet sampleClock
                              truncateToHour in
  let i := plainManager in
  let w := sampleWorld in
  let p := 1%nat in
  let impression := sighting 150 0 in
  let s := mkSlice 0 3 in
  let xs := sampleBatch in
  counterGuarded i = true /\
  shouldAddPreviousTime i = false /\
  heap w !! p = Some impression /\
  readSlice (heap w) s = Some xs /\
  ((exists r w', ProcessSingle i p w = Done r w' /\ observer w' = observer w)
  /\ (exists r w',
      ProcessImpressions i s w = Done r w' /\ observer w' = observer w)).
Proof.
  cbv zeta.
  split; [reflexivity|]. split; [reflexivity|].
  split; [reflexivity|]. split; [reflexivity|].
  apply (X8_observer_untouched_when_annotation_off
           cacheTestAndSet sampleClock truncateToHour
           plainManager sampleWorld 1%nat (sighting 150 0) (mkSlice 0 3)
           sampleBatch);
    reflexivity.
Defined.

(** X9 on the sample batch. *)
Lemma X9_increments_cover_logged_and_deduped_witness :
  let ProcessImpressions := ProcessImpressions cacheTestAndSet sampleClock
                              truncateToHour in
  let i := optimizedManager in
  let w := sampleWorld in
  let s := mkSlice 0 3 in
  let xs := sampleBatch in
  counterGuarded i = true /\
  readSlice (heap w) s = Some xs /\
  (exists forLog forListener w' events deduped,
    ProcessImpressions i s w = Done (forLog, forListener) w'
    /\ ticks w' = length xs + ticks w
    /\ trace w'
       = trace w ++ events
         ++ [EvRecordImpressionsStats ImpressionsDeduped deduped]
    /\ statsOf events = []
    /\ (isOptimized i = true ->
        Z.of_nat (length (incsOf events))
        = (Z.of_nat (length forLog) + deduped)%Z)
    /\ (isOptimized i = false -> incsOf events = [] /\ deduped = 0%Z)).
Proof.
  cbv zeta.
  split; [reflexivity|]. split; [reflexivity|].
  apply (X9_increments_cover_logged_and_deduped
           cacheTestAndSet sampleClock truncateToHour
           optimizedManager sampleWorld (mkSlice 0 3) sampleBatch);
    reflexivity.
Defined.

(** X10 on the sample batch: the optimizing manager with and without its
    listener. *)
Lemma X10_listener_flag_does_not_affect_logging_witness :
  let ProcessSingle := ProcessSingle cacheTestAndSet sampleClock
                         truncateToHour in
  let ProcessImpressions := ProcessImpressions cacheTestAndSet sampleClock
                              truncateToHour in
  let i := optimizedManager in
  let i' := {| impressionsCounter := CounterPtr;
               shouldAddPreviousTime := true;
               isOptimized := true;
               listenerEnabled := false |} in
  let w := sampleWorld in
  let p := 1%nat in
  let impression := sighting 150 0 in
  let s := mkSlice 0 3 in
  let xs := sampleBatch in
  impressionsCounter i = impressionsCounter i' /\
  shouldAddPreviousTime i = shouldAddPreviousTime i' /\
  isOptimized i = isOptimized i' /\
  counterGuarded i = true /\
  heap w !! p = Some impression /\
  readSlice (heap w) s = Some xs /\
  ((exists toLog toListener toListener' w',
      ProcessSingle i p w = Done (toLog, toListener) w'
      /\ ProcessSingle i' p w = Done (toLog, toListener') w')
  /\ (exists forLog forListener forListener' w',
      ProcessImpressions i s w = Done (forLog, forListener) w'
      /\ ProcessImpressions i' s w = Done (forLog, forListener') w')).
Proof.
  cbv zeta.
  split; [reflexivity|]. split; [reflexivity|].
  split; [reflexivity|]. split; [reflexivity|].
  split; [reflexivity|]. split; [reflexivity|].
  apply (X10_listener_flag_does_not_affect_logging
           cacheTestAndSet sampleClock truncateToHour
           optimizedManager (mkManager CounterPtr true true false)
           sampleWorld 1%nat (sighting 150 0) (mkSlice 0 3) sampleBatch);
    reflexivity.
Defined.

(** X11 on the third cell of the sample batch, after the first two
    impressions went through the observer. *)
Lemma X11_single_writes_into_the_slice_witness :
  let ProcessSingle := ProcessSingle cacheTestAndSet sampleClock
                         truncateToHour in
  let annotated := annotated cacheTestAndSet in
  let i := optimizedManager in
  let w := sampleWorld in
  let s := mkSlice 0 3 in
  let xs := sampleBatch in
  let k := 2 in
  let impression := sighting 7200000000200 0 in
  counterGuarded i = true /\
  readSlice (heap w) s = Some xs /\
  xs !! k = Some impression /\
  (exists r w',
    ProcessSingle i (base s + k) w = Done r w'
    /\ readSlice (heap w') s
       = Some (<[k := annotated i impression (observer w)]> xs)
    /\ (forall q, q <> base s + k -> heap w' !! q = heap w !! q)).
Proof.
  cbv zeta.
  split; [reflexivity|]. split; [reflexivity|].
  split; [reflexivity|].
  apply (X11_single_writes_into_the_slice
           cacheTestAndSet sampleClock truncateToHour
           optimizedManager sampleWorld (mkSlice 0 3) sampleBatch 2
           (sighting 7200000000200 0));
    reflexivity.
Defined.
